(** * Notion MCP adapter: the client's identifier validation, its request
      dispatch, and the tool handlers built on top of it.

    The development follows [src/notion/client.ts] (class [NotionClient]),
    the tool registry ([registerNotionTools]) and the start-up file that
    holds [toolConfig].

    JavaScript strings are sequences of UTF-16 code units; they are modelled
    as [list N], one number per code unit.  String literals of the source are
    written [lit "..."]. *)

From Stdlib Require Import ZArith NArith Bool List String Ascii Lia.
From Stdlib Require Import DecimalString.
From stdpp Require Import gmap list.
Import ListNotations.

Set Warnings "-register-all".

Local Open Scope N_scope.

(* ===================================================================== *)
(** ** Strings *)
(* ===================================================================== *)

Abbreviation jsstring := (list N).

(** A source literal (ASCII text) as a sequence of code units. *)
Fixpoint lit (s : string) : jsstring :=
  match s with
  | EmptyString => []
  | String a rest => N_of_ascii a :: lit rest
  end.

(** [\s] of a regular expression without the [u] flag, which is also the set
    that [String.prototype.trim] strips: WhiteSpace and LineTerminator. *)
Definition isWhiteSpace (c : N) : bool :=
  ((9 <=? c) && (c <=? 13))
  || (c =? 32) || (c =? 160) || (c =? 0x1680)
  || ((0x2000 <=? c) && (c <=? 0x200A))
  || (c =? 0x2028) || (c =? 0x2029) || (c =? 0x202F)
  || (c =? 0x205F) || (c =? 0x3000) || (c =? 0xFEFF).

(** The character class of the first [replace]: the single and the double
    quote. *)
Definition isQuote (c : N) : bool := (c =? 39) || (c =? 34).

(** The character [-]. *)
Definition isDash (c : N) : bool := c =? 45.

(** The class [0-9a-f] under the [i] flag: without the [u] flag a code unit
    above 127 never canonicalises to an ASCII one, so exactly the digits and
    the letters a-f, A-F match. *)
Definition isHexDigit (c : N) : bool :=
  ((48 <=? c) && (c <=? 57))
  || ((97 <=? c) && (c <=? 102))
  || ((65 <=? c) && (c <=? 70)).

(** The class [0-9a-f] without the [i] flag. *)
Definition isLowerHexDigit (c : N) : bool :=
  ((48 <=? c) && (c <=? 57)) || ((97 <=? c) && (c <=? 102)).

Fixpoint trimStart (s : jsstring) : jsstring :=
  match s with
  | [] => []
  | c :: rest => if isWhiteSpace c then trimStart rest else s
  end.

Definition trimEnd (s : jsstring) : jsstring := rev (trimStart (rev s)).

(** [s.trim()] *)
Definition trim (s : jsstring) : jsstring := trimEnd (trimStart s).

(** [s.replace(/C/g, empty)] for a one-character class [C]. *)
Definition removeAll (C : N -> bool) (s : jsstring) : jsstring :=
  List.filter (fun c => negb (C c)) s.

(** [s.slice(a, b)] and [s.slice(a)] for non-negative literal bounds. *)
Definition slice (a b : nat) (s : jsstring) : jsstring :=
  firstn (b - a) (skipn a s).

Definition sliceFrom (a : nat) (s : jsstring) : jsstring := skipn a s.

(** [/^[0-9a-f]{32}$/i.test(s)] *)
Definition test_hex32 (s : jsstring) : bool :=
  (length s =? 32)%nat && forallb isHexDigit s.

(** [hay.includes(needle)] *)
Fixpoint isPrefixOf (p s : jsstring) : bool :=
  match p, s with
  | [], _ => true
  | _ :: _, [] => false
  | a :: p', b :: s' => (a =? b) && isPrefixOf p' s'
  end.

Fixpoint includes (hay needle : jsstring) : bool :=
  isPrefixOf needle hay
  || match hay with
     | [] => false
     | _ :: rest => includes rest needle
     end.

(* ===================================================================== *)
(** ** Values, exceptions, results *)
(* ===================================================================== *)

(** The values the adapter handles: JSON data plus [undefined].  The only
    numbers that occur are page sizes, HTTP status codes and array lengths;
    they are modelled as integers.  An object keeps its keys in insertion
    order. *)
Inductive value : Type :=
  | VUndefined
  | VNull
  | VBool (b : bool)
  | VNum (n : Z)
  | VStr (s : jsstring)
  | VArr (items : list value)
  | VObj (fields : list (jsstring * value)).

(** What a [throw] carries: an [Error] instance with its [message], or any
    other value. *)
Inductive thrown : Type :=
  | ErrorObj (message : jsstring)
  | NonError (v : value).

Inductive Result (A : Type) : Type :=
  | Ok (a : A)
  | Throw (e : thrown).
Arguments Ok {A} a.
Arguments Throw {A} e.

(** JavaScript semantics of the few operations the source applies to
    values. *)
Module Js.

(** ToBoolean *)
Definition truthy (v : value) : bool :=
  match v with
  | VUndefined | VNull => false
  | VBool b => b
  | VNum n => negb (n =? 0)%Z
  | VStr s => negb (length s =? 0)%nat
  | VArr _ | VObj _ => true
  end.

(** Decimal digits of an integer, as [Number.prototype.toString] prints
    it. *)
Definition decimal (n : Z) : jsstring := lit (NilZero.string_of_int (Z.to_int n)).

Fixpoint join (sep : jsstring) (parts : list jsstring) : jsstring :=
  match parts with
  | [] => []
  | [p] => p
  | p :: rest => p ++ sep ++ join sep rest
  end.

(** ToString, as applied by a template literal and by [String(v)].  An array
    prints its elements separated by commas, [null] and [undefined] elements
    as nothing; a plain object prints as [[object Object]]. *)
Fixpoint toString (v : value) : jsstring :=
  match v with
  | VUndefined => lit "undefined"
  | VNull => lit "null"
  | VBool true => lit "true"
  | VBool false => lit "false"
  | VNum n => decimal n
  | VStr s => s
  | VArr items =>
      join (lit ",")
        (List.map (fun x => match x with
                            | VUndefined | VNull => []
                            | _ => toString x
                            end) items)
  | VObj _ => lit "[object Object]"
  end.

(** Own-property lookup in an object literal. *)
Fixpoint lookup_field (k : jsstring) (fields : list (jsstring * value)) : option value :=
  match fields with
  | [] => None
  | (k', v) :: rest => if decide (k' = k) then Some v else lookup_field k rest
  end.

(** [obj[k] = v]: an existing key keeps its place, a new key goes last. *)
Fixpoint set_field (k : jsstring) (v : value) (fields : list (jsstring * value))
  : list (jsstring * value) :=
  match fields with
  | [] => [(k, v)]
  | (k', v') :: rest =>
      if decide (k' = k) then (k, v) :: rest else (k', v') :: set_field k v rest
  end.

Definition has_field (k : jsstring) (fields : list (jsstring * value)) : bool :=
  match lookup_field k fields with Some _ => true | None => false end.

(** [obj[k]] on an object literal: [undefined] for a missing key. *)
Definition field (k : jsstring) (fields : list (jsstring * value)) : value :=
  match lookup_field k fields with Some x => x | None => VUndefined end.

(** The message V8 gives the TypeError of a property read on [undefined] or
    [null]. *)
Definition cannot_read (v : value) (k : jsstring) : thrown :=
  ErrorObj (lit "Cannot read properties of " ++ toString v
            ++ lit " (reading '" ++ k ++ lit "')").

(** The property read [v.k] for the keys the source reads ([message],
    [request_id], [results], [has_more], [length], [Name]): none of them is
    inherited, except [length] of strings and arrays. *)
Definition get (v : value) (k : jsstring) : Result value :=
  match v with
  | VUndefined | VNull => Throw (cannot_read v k)
  | VObj fields => Ok (field k fields)
  | VArr items =>
      Ok (if decide (k = lit "length") then VNum (Z.of_nat (length items))
          else VUndefined)
  | VStr s =>
      Ok (if decide (k = lit "length") then VNum (Z.of_nat (length s))
          else VUndefined)
  | VBool _ | VNum _ => Ok VUndefined
  end.

(** [a || b] *)
Definition or_else (a b : value) : value := if truthy a then a else b.

(** An optional string argument as a value. *)
Definition of_option_string (o : option jsstring) : value :=
  match o with Some s => VStr s | None => VUndefined end.

Definition of_option_number (o : option Z) : value :=
  match o with Some n => VNum n | None => VUndefined end.

(** [error instanceof Error ? error.message : String(error)] *)
Definition message_of (e : thrown) : jsstring :=
  match e with
  | ErrorObj m => m
  | NonError v => toString v
  end.

End Js.

(* ===================================================================== *)
(** ** The host: network and runtime library *)
(* ===================================================================== *)

(** What [fetch(url, options)] is called with.  [body] is the value that
    [request] serialises with [JSON.stringify]; it is kept unserialised. *)
Record HttpRequest : Type := mkRequest {
  url : jsstring;
  method : jsstring;
  headers : list (jsstring * jsstring);
  body : option value
}.

(** The outcome of [await fetch(...)] followed by [await response.json()]:
    one of the two rejects, or there is a response with a status and a parsed
    body. *)
Inductive FetchOutcome : Type :=
  | Rejected (e : thrown)
  | Response (status : Z) (data : value).

(** [response.ok] *)
Definition response_ok (status : Z) : bool :=
  ((200 <=? status) && (status <=? 299))%Z.

(** The environment of the program: the remote service, whose answer may
    depend on the requests made before, and the runtime's serialisers, whose
    output format is left open. *)
Record Host : Type := mkHost {
  fetch : list HttpRequest -> HttpRequest -> FetchOutcome;
  JSON_stringify : value -> jsstring;
  JSON_stringify_indent2 : value -> jsstring;
  URLSearchParams_toString : list (jsstring * jsstring) -> jsstring
}.

(** Computations that may throw and that issue network requests; the state is
    the list of requests issued so far, oldest first. *)
Definition M (A : Type) : Type :=
  list HttpRequest -> Result A * list HttpRequest.

Definition ret {A} (a : A) : M A := fun log => (Ok a, log).

Definition throw {A} (e : thrown) : M A := fun log => (Throw e, log).

Definition bind {A B} (m : M A) (k : A -> M B) : M B :=
  fun log =>
    match m log with
    | (Ok a, log') => k a log'
    | (Throw e, log') => (Throw e, log')
    end.

Definition lift {A} (r : Result A) : M A := fun log => (r, log).

(** [try { m } catch (error) { h error }] *)
Definition try_catch {A} (m : M A) (h : thrown -> M A) : M A :=
  fun log =>
    match m log with
    | (Ok a, log') => (Ok a, log')
    | (Throw e, log') => h e log'
    end.

Declare Scope js_scope.
Delimit Scope js_scope with js.
Notation "'do' x <- m ;; k" := (bind m (fun x => k))
  (at level 10, x name, m at level 99, k at level 200) : js_scope.

Local Open Scope js_scope.

(* ===================================================================== *)
(** ** NotionClient *)
(* ===================================================================== *)

Module Client.

Record NotionClient : Type := mkClient {
  apiKey : jsstring;
  baseUrl : jsstring;
  apiVersion : jsstring
}.

(** [new NotionClient(apiKey)] with the default base URL and version. *)
Definition new (key : jsstring) : NotionClient :=
  {| apiKey := key;
     baseUrl := lit "https://api.notion.com";
     apiVersion := lit "2022-06-28" |}.

(** The string after the reassignment of [uuid]: trimmed, then every quote
    removed, then every white-space character removed. *)
Definition stripped (uuid : jsstring) : jsstring :=
  removeAll isWhiteSpace (removeAll isQuote (trim uuid)).

(** The template literal of the [return] statement. *)
Definition dashed (c : jsstring) : jsstring :=
  slice 0 8 c ++ lit "-" ++ slice 8 12 c ++ lit "-" ++ slice 12 16 c
  ++ lit "-" ++ slice 16 20 c ++ lit "-" ++ sliceFrom 20 c.

Definition validateUUID (uuid : jsstring) : Result jsstring :=
  match uuid with
  | [] => Throw (ErrorObj (lit "Notion ID cannot be empty"))
  | _ :: _ =>
      let uuid := stripped uuid in
      let cleanUuid := removeAll isDash uuid in
      if negb (test_hex32 cleanUuid) then
        Throw (ErrorObj (lit "Invalid Notion ID format: " ++ uuid
                         ++ lit ". Expected a 32-character hexadecimal string."))
      else Ok (dashed cleanUuid)
  end.

(** The parent of a new page as the [create-page] tool builds it: a [type]
    and, under the key of that name, the identifier. *)
Inductive ParentType : Type := page_id | database_id.

Definition ParentType_name (t : ParentType) : jsstring :=
  match t with
  | page_id => lit "page_id"
  | database_id => lit "database_id"
  end.

Record Parent : Type := mkParent {
  parent_type : ParentType;
  parent_id : jsstring
}.

Definition Parent_value (p : Parent) : value :=
  VObj [(lit "type", VStr (ParentType_name (parent_type p)));
        (ParentType_name (parent_type p), VStr (parent_id p))].

Section WithHost.

Context (host : Host).

(** The [catch] clause of [request]. *)
Definition rethrow (e : thrown) : thrown :=
  match e with
  | ErrorObj m => ErrorObj m
  | NonError v =>
      ErrorObj (lit "Unexpected error in Notion API request: " ++ Js.toString v)
  end.

(** The error thrown for a response that is not [ok].  Reading [data.message]
    throws a TypeError when the body is [null].  The [console.error] call
    writes to the diagnostic stream only and is left out. *)
Definition api_error (status : Z) (data : value) (endpoint : jsstring)
  : Result thrown :=
  match Js.get data (lit "message"), Js.get data (lit "request_id") with
  | Ok message, Ok request_id =>
      Ok (ErrorObj
            (lit "Notion API error: " ++ Js.decimal status ++ lit " - "
             ++ (if Js.truthy message then Js.toString message
                 else JSON_stringify host data)
             ++ [10] ++ lit "Endpoint: " ++ endpoint
             ++ [10] ++ lit "Request ID: "
             ++ Js.toString (Js.or_else request_id (VStr (lit "unknown")))))
  | Throw e, _ | _, Throw e => Throw e
  end.

(** [request(endpoint, method, body)] *)
Definition request (c : NotionClient) (endpoint method : jsstring)
  (body : value) : M value :=
  fun log =>
    let req :=
      {| url := baseUrl c ++ endpoint;
         method := method;
         headers := [(lit "Authorization", lit "Bearer " ++ apiKey c);
                     (lit "Content-Type", lit "application/json");
                     (lit "Notion-Version", apiVersion c)];
         body := if Js.truthy body then Some body else None |} in
    let log' := log ++ [req] in
    match fetch host log req with
    | Rejected e => (Throw (rethrow e), log')
    | Response status data =>
        if negb (response_ok status) then
          match api_error status data endpoint with
          | Ok e => (Throw (rethrow e), log')
          | Throw e => (Throw (rethrow e), log')
          end
        else (Ok data, log')
    end.

Definition GET : jsstring := lit "GET".
Definition POST : jsstring := lit "POST".
Definition PATCH : jsstring := lit "PATCH".

Definition getMe (c : NotionClient) : M value :=
  request c (lit "/v1/users/me") GET VUndefined.

(** The query string that [listUsers] and [getComments] append. *)
Definition queryString (query : list (jsstring * jsstring)) : jsstring :=
  match URLSearchParams_toString host query with
  | [] => []
  | _ :: _ => lit "?" ++ URLSearchParams_toString host query
  end.

(** The entries set by [if (startCursor) ...] and [if (pageSize) ...], with
    100 for an absent page size. *)
Definition paging (startCursor : option jsstring) (pageSize : option Z)
  : list (jsstring * jsstring) :=
  let pageSize := match pageSize with Some n => n | None => 100%Z end in
  (if Js.truthy (Js.of_option_string startCursor)
   then [(lit "start_cursor", Js.toString (Js.of_option_string startCursor))]
   else [])
  ++ (if Js.truthy (VNum pageSize)
      then [(lit "page_size", Js.decimal pageSize)] else []).

Definition listUsers (c : NotionClient) (startCursor : option jsstring)
  (pageSize : option Z) : M value :=
  request c (lit "/v1/users" ++ queryString (paging startCursor pageSize))
    GET VUndefined.

Definition getUser (c : NotionClient) (userId : jsstring) : M value :=
  request c (lit "/v1/users/" ++ userId) GET VUndefined.

Definition search (c : NotionClient) (params : value) : M value :=
  request c (lit "/v1/search") POST params.

Definition getPage (c : NotionClient) (pageId : jsstring) : M value :=
  do pageId <- lift (validateUUID pageId) ;;
  request c (lit "/v1/pages/" ++ pageId) GET VUndefined.

(** [createPage(params)]: [params] is the parent and the other keys of the
    object, in order.  The identifier stored under the key that [parent.type]
    names is validated and the result is stored back. *)
Definition createPage (c : NotionClient) (parent : Parent)
  (others : list (jsstring * value)) : M value :=
  do parent <-
    match parent_type parent with
    | page_id =>
        do id <- lift (validateUUID (parent_id parent)) ;;
        ret {| parent_type := page_id; parent_id := id |}
    | database_id =>
        do id <- lift (validateUUID (parent_id parent)) ;;
        ret {| parent_type := database_id; parent_id := id |}
    end ;;
  request c (lit "/v1/pages") POST
    (VObj ((lit "parent", Parent_value parent) :: others)).

Definition updatePage (c : NotionClient) (pageId : jsstring) (params : value)
  : M value :=
  do pageId <- lift (validateUUID pageId) ;;
  request c (lit "/v1/pages/" ++ pageId) PATCH params.

Definition getDatabase (c : NotionClient) (databaseId : jsstring) : M value :=
  request c (lit "/v1/databases/" ++ databaseId) GET VUndefined.

Definition createDatabase (c : NotionClient) (params : value) : M value :=
  request c (lit "/v1/databases") POST params.

Definition queryDatabase (c : NotionClient) (databaseId : jsstring)
  (params : value) : M value :=
  request c (lit "/v1/databases/" ++ databaseId ++ lit "/query") POST params.

Definition getBlock (c : NotionClient) (blockId : jsstring) : M value :=
  request c (lit "/v1/blocks/" ++ blockId) GET VUndefined.

Definition getBlockChildren (c : NotionClient) (blockId : jsstring)
  (params : value) : M value :=
  do blockId <- lift (validateUUID blockId) ;;
  request c (lit "/v1/blocks/" ++ blockId ++ lit "/children") GET params.

Definition appendBlockChildren (c : NotionClient) (blockId : jsstring)
  (children : value) : M value :=
  request c (lit "/v1/blocks/" ++ blockId ++ lit "/children") PATCH
    (VObj [(lit "children", children)]).

Definition getComments (c : NotionClient) (blockId : jsstring)
  (startCursor : option jsstring) (pageSize : option Z) : M value :=
  request c
    (lit "/v1/comments"
     ++ queryString ((lit "block_id", blockId) :: paging startCursor pageSize))
    GET VUndefined.

Definition createComment (c : NotionClient) (params : value) : M value :=
  request c (lit "/v1/comments") POST params.

End WithHost.

End Client.

(* ===================================================================== *)
(** ** The tool registry *)
(* ===================================================================== *)

Module Tools.

Import Client.

Record ContentItem : Type := mkItem {
  type : jsstring;
  text : jsstring
}.

Record ToolResult : Type := mkResult {
  content : list ContentItem
}.

(** [{ content: [{ type: 'text', text: t }] }] *)
Definition text_result (t : jsstring) : ToolResult :=
  {| content := [{| type := lit "text"; text := t |}] |}.

(** [z.enum(['page', 'database'])] *)
Inductive ObjectKind : Type := page | database.

Definition ObjectKind_name (k : ObjectKind) : jsstring :=
  match k with page => lit "page" | database => lit "database" end.

(** [z.enum(['last_edited_time'])] *)
Inductive SortField : Type := last_edited_time.

Definition SortField_name (f : SortField) : jsstring :=
  match f with last_edited_time => lit "last_edited_time" end.

(** [z.enum(['ascending', 'descending'])] *)
Inductive SortDirection : Type := ascending | descending.

Definition SortDirection_name (d : SortDirection) : jsstring :=
  match d with
  | ascending => lit "ascending"
  | descending => lit "descending"
  end.

(** [{ type: 'text', text: { content: s } }] *)
Definition rich_text_item (s : jsstring) : value :=
  VObj [(lit "type", VStr (lit "text"));
        (lit "text", VObj [(lit "content", VStr s)])].

(** The paragraph block that wraps a plain text. *)
Definition paragraph_block (s : jsstring) : value :=
  VObj [(lit "object", VStr (lit "block"));
        (lit "type", VStr (lit "paragraph"));
        (lit "paragraph", VObj [(lit "rich_text", VArr [rich_text_item s])])].

(** [{ title: [ { type: 'text', text: { content: title } } ] }] *)
Definition title_property (title : jsstring) : value :=
  VObj [(lit "title", VArr [rich_text_item title])].

(** [if (cond) obj.k = v] on the object built so far. *)
Definition set_if (cond : bool) (k : jsstring) (v : value)
  (fields : list (jsstring * value)) : list (jsstring * value) :=
  if cond then Js.set_field k v fields else fields.

(** The arguments of a tool invocation, as the parameter schema of each tool
    admits them; an optional parameter that is left out is [None]. *)
Inductive ToolCall : Type :=
  | get_current_user
  | list_users (startCursor : option jsstring) (pageSize : option Z)
  | search (query : option jsstring) (filter : option ObjectKind)
      (sort : option SortField) (sortDirection : option SortDirection)
      (pageSize : option Z) (startCursor : option jsstring)
  | get_page (pageId : jsstring)
  | create_page (parentType : ParentType) (parentId title : jsstring)
      (properties : option (list (jsstring * value)))
      (content : option jsstring)
  | get_database (databaseId : jsstring)
  | create_database (parentId title : jsstring)
      (properties : option (list (jsstring * value)))
  | query_database (databaseId : jsstring)
      (filter : option (list (jsstring * value)))
      (sorts : option (list value))
      (startCursor : option jsstring) (pageSize : option Z)
  | get_block_children (blockId : jsstring) (startCursor : option jsstring)
      (pageSize : option Z)
  | append_block_children (blockId content : jsstring)
  | get_comments (blockId : jsstring) (startCursor : option jsstring)
      (pageSize : option Z)
  | create_comment (pageId text : jsstring)
  | get_all_pages (startCursor : option jsstring) (pageSize : option Z).

(** The thirteen tools. *)
Inductive Tool : Type :=
  | GetCurrentUser | ListUsers | Search | GetPage | CreatePage | GetDatabase
  | CreateDatabase | QueryDatabase | GetBlockChildren | AppendBlockChildren
  | GetComments | CreateComment | GetAllPages.

Definition all_tools : list Tool :=
  [GetCurrentUser; ListUsers; Search; GetPage; CreatePage; GetDatabase;
   CreateDatabase; QueryDatabase; GetBlockChildren; AppendBlockChildren;
   GetComments; CreateComment; GetAllPages].

(** The name a tool is registered under. *)
Definition name (t : Tool) : jsstring :=
  match t with
  | GetCurrentUser => lit "get-current-user"
  | ListUsers => lit "list-users"
  | Search => lit "search"
  | GetPage => lit "get-page"
  | CreatePage => lit "create-page"
  | GetDatabase => lit "get-database"
  | CreateDatabase => lit "create-database"
  | QueryDatabase => lit "query-database"
  | GetBlockChildren => lit "get-block-children"
  | AppendBlockChildren => lit "append-block-children"
  | GetComments => lit "get-comments"
  | CreateComment => lit "create-comment"
  | GetAllPages => lit "get-all-pages"
  end.

Definition description (t : Tool) : jsstring :=
  match t with
  | GetCurrentUser =>
      lit "Get information about the current authenticated user (bot)"
  | ListUsers => lit "List all users in the workspace"
  | Search => lit "Search for pages or databases in Notion workspace"
  | GetPage => lit "Retrieve a page by ID"
  | CreatePage => lit "Create a new page in Notion"
  | GetDatabase => lit "Retrieve a database by ID"
  | CreateDatabase => lit "Create a new database in Notion"
  | QueryDatabase => lit "Query a database to retrieve its pages"
  | GetBlockChildren => lit "Retrieve children blocks of a block or page"
  | AppendBlockChildren => lit "Append blocks to a parent block or page"
  | GetComments => lit "Retrieve comments from a block or page"
  | CreateComment => lit "Create a comment on a page"
  | GetAllPages =>
      lit "Retrieve all pages from Notion that the integration has access to"
  end.

(** The tool an invocation is addressed to. *)
Definition tool_of (call : ToolCall) : Tool :=
  match call with
  | get_current_user => GetCurrentUser
  | list_users _ _ => ListUsers
  | search _ _ _ _ _ _ => Search
  | get_page _ => GetPage
  | create_page _ _ _ _ _ => CreatePage
  | get_database _ => GetDatabase
  | create_database _ _ _ => CreateDatabase
  | query_database _ _ _ _ _ => QueryDatabase
  | get_block_children _ _ _ => GetBlockChildren
  | append_block_children _ _ => AppendBlockChildren
  | get_comments _ _ _ => GetComments
  | create_comment _ _ => CreateComment
  | get_all_pages _ _ => GetAllPages
  end.

(** The words each [catch] clause puts between [Error] and the colon. *)
Definition action (t : Tool) : jsstring :=
  match t with
  | GetCurrentUser => lit "fetching current user"
  | ListUsers => lit "listing users"
  | Search => lit "searching Notion"
  | GetPage => lit "retrieving page"
  | CreatePage => lit "creating page"
  | GetDatabase => lit "retrieving database"
  | CreateDatabase => lit "creating database"
  | QueryDatabase => lit "querying database"
  | GetBlockChildren => lit "retrieving block children"
  | AppendBlockChildren => lit "appending blocks"
  | GetComments => lit "retrieving comments"
  | CreateComment => lit "creating comment"
  | GetAllPages => lit "retrieving pages"
  end.

Section Handlers.

Context (host : Host) (notionClient : NotionClient).

Definition stringify (v : value) : jsstring := JSON_stringify_indent2 host v.

(** *** User tools *)

Definition get_current_user_handler : M ToolResult :=
  try_catch
    (do user <- getMe host notionClient ;;
     ret (text_result (stringify user)))
    (fun error =>
       ret (text_result (lit "Error fetching current user: "
                         ++ Js.message_of error))).

Definition list_users_handler (startCursor : option jsstring)
  (pageSize : option Z) : M ToolResult :=
  try_catch
    (do users <- listUsers host notionClient startCursor pageSize ;;
     ret (text_result (stringify users)))
    (fun error =>
       ret (text_result (lit "Error listing users: " ++ Js.message_of error))).

(** *** Search *)

(** The object [searchParams] after the five [if] statements. *)
Definition searchParams (query : option jsstring) (filter : option ObjectKind)
  (sort : option SortField) (sortDirection : option SortDirection)
  (pageSize : option Z) (startCursor : option jsstring)
  : list (jsstring * value) :=
  let searchParams := [] in
  let searchParams :=
    set_if (Js.truthy (Js.of_option_string query))
      (lit "query") (Js.of_option_string query) searchParams in
  let searchParams :=
    set_if (Js.truthy (Js.of_option_string startCursor))
      (lit "start_cursor") (Js.of_option_string startCursor) searchParams in
  let searchParams :=
    set_if (Js.truthy (Js.of_option_number pageSize))
      (lit "page_size") (Js.of_option_number pageSize) searchParams in
  let searchParams :=
    match filter with
    | Some filter =>
        Js.set_field (lit "filter")
          (VObj [(lit "property", VStr (lit "object"));
                 (lit "value", VStr (ObjectKind_name filter))])
          searchParams
    | None => searchParams
    end in
  let searchParams :=
    match sort with
    | Some sort =>
        Js.set_field (lit "sort")
          (VObj [(lit "timestamp", VStr (SortField_name sort));
                 (lit "direction",
                  Js.or_else
                    (Js.of_option_string
                       (option_map SortDirection_name sortDirection))
                    (VStr (lit "descending")))])
          searchParams
    | None => searchParams
    end in
  searchParams.

Definition search_handler (query : option jsstring)
  (filter : option ObjectKind) (sort : option SortField)
  (sortDirection : option SortDirection) (pageSize : option Z)
  (startCursor : option jsstring) : M ToolResult :=
  try_catch
    (do results <-
       Client.search host notionClient
         (VObj (searchParams query filter sort sortDirection pageSize
                  startCursor)) ;;
     ret (text_result (stringify results)))
    (fun error =>
       ret (text_result (lit "Error searching Notion: "
                         ++ Js.message_of error))).

(** *** Page tools *)

Definition get_page_handler (pageId : jsstring) : M ToolResult :=
  try_catch
    (do page <- getPage host notionClient pageId ;;
     ret (text_result (stringify page)))
    (fun error =>
       ret (text_result (lit "Error retrieving page: "
                         ++ Js.message_of error))).

(** The object [pageProperties] of the [create-page] handler. *)
Definition pageProperties (parentType : ParentType) (title : jsstring)
  (properties : option (list (jsstring * value))) : list (jsstring * value) :=
  match parentType with
  | database_id =>
      let pageProperties :=
        match properties with Some p => p | None => [] end in
      if Js.truthy (VStr title)
         && negb (Js.truthy (Js.field (lit "Name") pageProperties))
      then Js.set_field (lit "Name") (title_property title) pageProperties
      else pageProperties
  | page_id => [(lit "title", VArr [rich_text_item title])]
  end.

(** [content ? [ paragraph ] : undefined] *)
Definition children_of (content : option jsstring) : value :=
  match content with
  | Some text =>
      if Js.truthy (VStr text) then VArr [paragraph_block text] else VUndefined
  | None => VUndefined
  end.

Definition create_page_handler (parentType : ParentType)
  (parentId title : jsstring) (properties : option (list (jsstring * value)))
  (content : option jsstring) : M ToolResult :=
  try_catch
    (let pageProperties := pageProperties parentType title properties in
     let children := children_of content in
     do page <-
       createPage host notionClient
         {| parent_type := parentType; parent_id := parentId |}
         [(lit "properties", VObj pageProperties);
          (lit "children", children)] ;;
     ret (text_result (stringify page)))
    (fun error =>
       ret (text_result (lit "Error creating page: " ++ Js.message_of error))).

(** *** Database tools *)

Definition get_database_handler (databaseId : jsstring) : M ToolResult :=
  try_catch
    (do database <- getDatabase host notionClient databaseId ;;
     ret (text_result (stringify database)))
    (fun error =>
       ret (text_result (lit "Error retrieving database: "
                         ++ Js.message_of error))).

(** [properties || { Name: { title: {} } }] *)
Definition dbProperties (properties : option (list (jsstring * value)))
  : list (jsstring * value) :=
  match properties with
  | Some p => p
  | None => [(lit "Name", VObj [(lit "title", VObj [])])]
  end.

Definition createDatabase_params (parentId title : jsstring)
  (properties : option (list (jsstring * value))) : value :=
  VObj [(lit "parent",
         VObj [(lit "type", VStr (lit "page_id"));
               (lit "page_id", VStr parentId)]);
        (lit "title", VArr [rich_text_item title]);
        (lit "properties", VObj (dbProperties properties))].

Definition create_database_handler (parentId title : jsstring)
  (properties : option (list (jsstring * value))) : M ToolResult :=
  try_catch
    (do database <-
       createDatabase host notionClient
         (createDatabase_params parentId title properties) ;;
     ret (text_result (stringify database)))
    (fun error =>
       ret (text_result (lit "Error creating database: "
                         ++ Js.message_of error))).

(** The object [queryParams] after the four [if] statements; a supplied
    record or array is always truthy. *)
Definition queryParams (filter : option (list (jsstring * value)))
  (sorts : option (list value)) (startCursor : option jsstring)
  (pageSize : option Z) : list (jsstring * value) :=
  let queryParams := [] in
  let queryParams :=
    match filter with
    | Some filter => Js.set_field (lit "filter") (VObj filter) queryParams
    | None => queryParams
    end in
  let queryParams :=
    match sorts with
    | Some sorts => Js.set_field (lit "sorts") (VArr sorts) queryParams
    | None => queryParams
    end in
  let queryParams :=
    set_if (Js.truthy (Js.of_option_string startCursor))
      (lit "start_cursor") (Js.of_option_string startCursor) queryParams in
  let queryParams :=
    set_if (Js.truthy (Js.of_option_number pageSize))
      (lit "page_size") (Js.of_option_number pageSize) queryParams in
  queryParams.

Definition query_database_handler (databaseId : jsstring)
  (filter : option (list (jsstring * value))) (sorts : option (list value))
  (startCursor : option jsstring) (pageSize : option Z) : M ToolResult :=
  try_catch
    (do results <-
       queryDatabase host notionClient databaseId
         (VObj (queryParams filter sorts startCursor pageSize)) ;;
     ret (text_result (stringify results)))
    (fun error =>
       ret (text_result (lit "Error querying database: "
                         ++ Js.message_of error))).

(** *** Block tools *)

(** The handler passes [startCursor] and [pageSize] as second and third
    argument; the client's second parameter is [params], so [startCursor]
    arrives there and [pageSize] is dropped. *)
Definition get_block_children_handler (blockId : jsstring)
  (startCursor : option jsstring) (pageSize : option Z) : M ToolResult :=
  try_catch
    (do blocks <-
       getBlockChildren host notionClient blockId
         (Js.of_option_string startCursor) ;;
     ret (text_result (stringify blocks)))
    (fun error =>
       ret (text_result (lit "Error retrieving block children: "
                         ++ Js.message_of error))).

Definition append_block_children_handler (blockId content : jsstring)
  : M ToolResult :=
  try_catch
    (do blocks <-
       appendBlockChildren host notionClient blockId
         (VArr [paragraph_block content]) ;;
     ret (text_result (stringify blocks)))
    (fun error =>
       ret (text_result (lit "Error appending blocks: "
                         ++ Js.message_of error))).

(** *** Comment tools *)

Definition get_comments_handler (blockId : jsstring)
  (startCursor : option jsstring) (pageSize : option Z) : M ToolResult :=
  try_catch
    (do comments <-
       getComments host notionClient blockId startCursor pageSize ;;
     ret (text_result (stringify comments)))
    (fun error =>
       ret (text_result (lit "Error retrieving comments: "
                         ++ Js.message_of error))).

Definition createComment_params (pageId text : jsstring) : value :=
  VObj [(lit "parent", VObj [(lit "page_id", VStr pageId)]);
        (lit "rich_text", VArr [rich_text_item text])].

Definition create_comment_handler (pageId text : jsstring) : M ToolResult :=
  try_catch
    (do comment <-
       createComment host notionClient (createComment_params pageId text) ;;
     ret (text_result (stringify comment)))
    (fun error =>
       ret (text_result (lit "Error creating comment: "
                         ++ Js.message_of error))).

(** *** All pages *)

(** The argument of [search] in the [get-all-pages] handler. *)
Definition allPages_params (startCursor : option jsstring) (pageSize : Z)
  : value :=
  VObj [(lit "filter",
         VObj [(lit "value", VStr (lit "page"));
               (lit "property", VStr (lit "object"))]);
        (lit "page_size", VNum pageSize);
        (lit "start_cursor", Js.of_option_string startCursor)].

(** The template literal of the success branch; reading
    [results.results.length] can throw. *)
Definition allPages_text (results : value) : Result jsstring :=
  match Js.get results (lit "results") with
  | Throw e => Throw e
  | Ok pages =>
      match Js.get pages (lit "length") with
      | Throw e => Throw e
      | Ok len =>
          match Js.get results (lit "has_more") with
          | Throw e => Throw e
          | Ok has_more =>
              Ok (lit "Found " ++ Js.toString len ++ lit " pages. "
                  ++ (if Js.truthy has_more then lit "More pages available."
                      else lit "No more pages available.")
                  ++ [10; 10] ++ stringify results)
          end
      end
  end.

Definition get_all_pages_handler (startCursor : option jsstring)
  (pageSize : option Z) : M ToolResult :=
  let pageSize := match pageSize with Some n => n | None => 100%Z end in
  try_catch
    (do results <-
       Client.search host notionClient (allPages_params startCursor pageSize) ;;
     do t <- lift (allPages_text results) ;;
     ret (text_result t))
    (fun error =>
       ret (text_result (lit "Error retrieving pages: "
                         ++ Js.message_of error))).

(** *** Dispatch *)

(** Running the handler registered for the tool with the given arguments. *)
Definition handler (call : ToolCall) : M ToolResult :=
  match call with
  | get_current_user => get_current_user_handler
  | list_users startCursor pageSize => list_users_handler startCursor pageSize
  | search query filter sort sortDirection pageSize startCursor =>
      search_handler query filter sort sortDirection pageSize startCursor
  | get_page pageId => get_page_handler pageId
  | create_page parentType parentId title properties content =>
      create_page_handler parentType parentId title properties content
  | get_database databaseId => get_database_handler databaseId
  | create_database parentId title properties =>
      create_database_handler parentId title properties
  | query_database databaseId filter sorts startCursor pageSize =>
      query_database_handler databaseId filter sorts startCursor pageSize
  | get_block_children blockId startCursor pageSize =>
      get_block_children_handler blockId startCursor pageSize
  | append_block_children blockId content =>
      append_block_children_handler blockId content
  | get_comments blockId startCursor pageSize =>
      get_comments_handler blockId startCursor pageSize
  | create_comment pageId text => create_comment_handler pageId text
  | get_all_pages startCursor pageSize =>
      get_all_pages_handler startCursor pageSize
  end.

(** The Client operation that the handler of each tool awaits, with the
    arguments the handler passes. *)
Definition client_call (call : ToolCall) : M value :=
  match call with
  | get_current_user => getMe host notionClient
  | list_users startCursor pageSize =>
      listUsers host notionClient startCursor pageSize
  | search query filter sort sortDirection pageSize startCursor =>
      Client.search host notionClient
        (VObj (searchParams query filter sort sortDirection pageSize
                 startCursor))
  | get_page pageId => getPage host notionClient pageId
  | create_page parentType parentId title properties content =>
      createPage host notionClient
        {| parent_type := parentType; parent_id := parentId |}
        [(lit "properties", VObj (pageProperties parentType title properties));
         (lit "children", children_of content)]
  | get_database databaseId => getDatabase host notionClient databaseId
  | create_database parentId title properties =>
      createDatabase host notionClient
        (createDatabase_params parentId title properties)
  | query_database databaseId filter sorts startCursor pageSize =>
      queryDatabase host notionClient databaseId
        (VObj (queryParams filter sorts startCursor pageSize))
  | get_block_children blockId startCursor _ =>
      getBlockChildren host notionClient blockId
        (Js.of_option_string startCursor)
  | append_block_children blockId content =>
      appendBlockChildren host notionClient blockId
        (VArr [paragraph_block content])
  | get_comments blockId startCursor pageSize =>
      getComments host notionClient blockId startCursor pageSize
  | create_comment pageId text =>
      createComment host notionClient (createComment_params pageId text)
  | get_all_pages startCursor pageSize =>
      Client.search host notionClient
        (allPages_params startCursor
           (match pageSize with Some n => n | None => 100%Z end))
  end.

End Handlers.

(** *** Registration *)

(** What [server.tool(name, description, schema, handler)] records; the
    handler is identified by its tool, the parameter schema is the type of
    the matching [ToolCall] constructor. *)
Record Registration : Type := mkRegistration {
  reg_name : jsstring;
  reg_description : jsstring;
  reg_tool : Tool
}.

Abbreviation McpServer := (list Registration).

Definition registration (t : Tool) : Registration :=
  {| reg_name := name t; reg_description := description t; reg_tool := t |}.

(** [server.tool(...)] for tool [t], on a server that does not hold the name
    of [t] yet: the registration goes last.  (The SDK refuses a name that is
    already registered; [registerNotionTools] registers thirteen different
    names, so on a new server, or on any server free of these names, that
    never happens.) *)
Definition server_tool (server : McpServer) (t : Tool) : McpServer :=
  server ++ [registration t].

(** [toolConfig[key] !== false] *)
Definition not_false (toolConfig : gmap jsstring bool) (key : jsstring)
  : bool :=
  match toolConfig !! key with
  | Some false => false
  | Some true | None => true
  end.

Definition registerNotionTools (server : McpServer)
  (toolConfig : gmap jsstring bool) : McpServer :=
  let server :=
    if not_false toolConfig (lit "get-current-user")
    then server_tool server GetCurrentUser else server in
  let server :=
    if not_false toolConfig (lit "list-users")
    then server_tool server ListUsers else server in
  let server :=
    if not_false toolConfig (lit "search")
    then server_tool server Search else server in
  let server :=
    if not_false toolConfig (lit "get-page")
    then server_tool server GetPage else server in
  let server :=
    if not_false toolConfig (lit "create-page")
    then server_tool server CreatePage else server in
  let server :=
    if not_false toolConfig (lit "get-database")
    then server_tool server GetDatabase else server in
  let server :=
    if not_false toolConfig (lit "create-database")
    then server_tool server CreateDatabase else server in
  let server :=
    if not_false toolConfig (lit "query-database")
    then server_tool server QueryDatabase else server in
  let server :=
    if not_false toolConfig (lit "get-block-children")
    then server_tool server GetBlockChildren else server in
  let server :=
    if not_false toolConfig (lit "append-block-children")
    then server_tool server AppendBlockChildren else server in
  let server :=
    if not_false toolConfig (lit "get-comments")
    then server_tool server GetComments else server in
  let server :=
    if not_false toolConfig (lit "create-comment")
    then server_tool server CreateComment else server in
  let server :=
    if not_false toolConfig (lit "get-all-pages")
    then server_tool server GetAllPages else server in
  server.

(** The tool list the host sees. *)
Definition listed (server : McpServer) : list jsstring :=
  List.map reg_name server.

(** [new McpServer(...)]: no tool yet. *)
Definition new_server : McpServer := [].

(** The [toolConfig] of the start-up file. *)
Definition toolConfig : gmap jsstring bool :=
  list_to_map
    [(lit "get-current-user", true);
     (lit "list-users", true);
     (lit "search", true);
     (lit "get-page", true);
     (lit "create-page", true);
     (lit "get-database", false);
     (lit "create-database", false);
     (lit "query-database", false);
     (lit "get-block-children", true);
     (lit "append-block-children", true);
     (lit "get-comments", false);
     (lit "create-comment", false);
     (lit "get-all-pages", true)].

End Tools.

(* ===================================================================== *)
(** ** Start-up *)
(* ===================================================================== *)

Module Main.

(** What the start-up file has built once it reaches [main()]. *)
Record Started : Type := mkStarted {
  notionClient : Client.NotionClient;
  server : Tools.McpServer
}.

(** The top level of the start-up file, given the value of the environment
    variable [NOTION_API_KEY] ([None] when it is not set): the check of the
    key, the client, the server and the registration of the tools. *)
Definition start (NOTION_API_KEY : option jsstring) : Result Started :=
  let apiKey := Js.of_option_string NOTION_API_KEY in
  if negb (Js.truthy apiKey) then
    Throw (ErrorObj (lit "NOTION_API_KEY environment variable is required"))
  else
    Ok {| notionClient := Client.new (Js.toString apiKey);
          server :=
            Tools.registerNotionTools Tools.new_server Tools.toolConfig |}.

End Main.

(* ===================================================================== *)
(** ** Vocabulary of the properties *)
(* ===================================================================== *)

(** An input with its quotes, white space and dashes taken out. *)
Definition reduce (s : jsstring) : jsstring :=
  List.filter (fun c => negb (isWhiteSpace c || isQuote c || isDash c)) s.

(** An input with its quotes and white space taken out, dashes kept. *)
Definition unquoted (s : jsstring) : jsstring :=
  List.filter (fun c => negb (isWhiteSpace c || isQuote c)) s.

(** Positions 8, 13, 18 and 23. *)
Definition dash_position (i : nat) : bool :=
  (i =? 8)%nat || (i =? 13)%nat || (i =? 18)%nat || (i =? 23)%nat.

Fixpoint form_from (digit : N -> bool) (i : nat) (u : jsstring) : bool :=
  match u with
  | [] => true
  | c :: rest =>
      (if dash_position i then isDash c else digit c)
      && form_from digit (S i) rest
  end.

(** 36 characters, a dash at positions 8, 13, 18 and 23 and a [digit]
    everywhere else. *)
Definition has_form (digit : N -> bool) (u : jsstring) : bool :=
  (length u =? 36)%nat && form_from digit 0 u.

(** The form xxxxxxxx-xxxx-xxxx-xxxx-xxxxxxxxxxxx in lowercase hex. *)
Definition canonical (u : jsstring) : bool := has_form isLowerHexDigit u.

(** The same grouping with hex digits of either case. *)
Definition grouped (u : jsstring) : bool := has_form isHexDigit u.

(** What the specification says the [create-page] tool sends as properties
    under a database parent: the caller's mapping, with a [Name] title
    property added exactly when the mapping has no [Name] key. *)
Definition specified_pageProperties (title : jsstring)
  (properties : option (list (jsstring * value))) : list (jsstring * value) :=
  let given := match properties with Some p => p | None => [] end in
  if Js.has_field (lit "Name") given then given
  else given ++ [(lit "Name", Tools.title_property title)].

(** The request that [request(endpoint, method, body)] hands to [fetch]. *)
Definition sent (c : Client.NotionClient) (endpoint method : jsstring)
  (body : value) : HttpRequest :=
  {| url := Client.baseUrl c ++ endpoint;
     method := method;
     headers := [(lit "Authorization", lit "Bearer " ++ Client.apiKey c);
                 (lit "Content-Type", lit "application/json");
                 (lit "Notion-Version", Client.apiVersion c)];
     body := if Js.truthy body then Some body else None |}.

(** The message of a rejected identifier. *)
Definition rejection_message (s : jsstring) : jsstring :=
  match s with
  | [] => lit "Notion ID cannot be empty"
  | _ :: _ =>
      lit "Invalid Notion ID format: " ++ unquoted s
      ++ lit ". Expected a 32-character hexadecimal string."
  end.

(** One guarded [server.tool] call of [registerNotionTools]. *)
Definition guarded_tool (toolConfig : gmap jsstring bool)
  (server : Tools.McpServer) (t : Tools.Tool) : Tools.McpServer :=
  if Tools.not_false toolConfig (Tools.name t) then Tools.server_tool server t
  else server.

(** The headers that [request] puts on every request. *)
Definition standard_headers (c : Client.NotionClient)
  : list (jsstring * jsstring) :=
  [(lit "Authorization", lit "Bearer " ++ Client.apiKey c);
   (lit "Content-Type", lit "application/json");
   (lit "Notion-Version", Client.apiVersion c)].

(** [log'] is [log] with at most one request of client [c] added. *)
Definition issued (c : Client.NotionClient) (log log' : list HttpRequest)
  : Prop :=
  log' = log
  \/ exists endpoint method body, log' = log ++ [sent c endpoint method body].

(** The page size a handler or operation uses when none is given. *)
Definition page_size_or_100 (pageSize : option Z) : Z :=
  match pageSize with Some n => n | None => 100%Z end.

(** A string parameter that is present and not empty, as a one-entry object
    fragment. *)
Definition supplied_string (key : jsstring) (o : option jsstring)
  : list (jsstring * value) :=
  match o with
  | Some (x :: rest) => [(key, VStr (x :: rest))]
  | Some [] | None => []
  end.

(** A number parameter that is present and not zero. *)
Definition supplied_number (key : jsstring) (o : option Z)
  : list (jsstring * value) :=
  match o with
  | Some n => if (n =? 0)%Z then [] else [(key, VNum n)]
  | None => []
  end.

(** A parameter that is present, whatever its value. *)
Definition supplied (key : jsstring) (o : option value)
  : list (jsstring * value) :=
  match o with
  | Some v => [(key, v)]
  | None => []
  end.

(** The identifier that the Client operation behind a tool invocation
    validates, for the three tools whose operation validates one. *)
Definition validated_identifier (call : Tools.ToolCall) : option jsstring :=
  match call with
  | Tools.get_page pageId => Some pageId
  | Tools.create_page _ parentId _ _ _ => Some parentId
  | Tools.get_block_children blockId _ _ => Some blockId
  | _ => None
  end.

(** A host for running examples: the remote service answers every request
    with an empty, final result list. *)
Definition empty_list_response : value :=
  VObj [(lit "object", VStr (lit "list"));
        (lit "results", VArr []);
        (lit "next_cursor", VNull);
        (lit "has_more", VBool false)].

Definition example_host : Host :=
  {| fetch := fun _ _ => Response 200 empty_list_response;
     JSON_stringify := Js.toString;
     JSON_stringify_indent2 := Js.toString;
     URLSearchParams_toString := fun q => Js.join (lit "&")
        (List.map (fun kv => fst kv ++ lit "=" ++ snd kv) q) |}.

Definition example_client : Client.NotionClient := Client.new (lit "secret").

(* ===================================================================== *)
(** ** Identifier validation *)
(* ===================================================================== *)

Section Strings.

Lemma removeAll_app (C : N -> bool) (a b : jsstring) :
  removeAll C (a ++ b) = removeAll C a ++ removeAll C b.
Proof. unfold removeAll. apply List.filter_app. Qed.

Lemma trimStart_split (s : jsstring) :
  exists p, s = p ++ trimStart s /\ forallb isWhiteSpace p = true.
Proof.
  induction s as [|c s IH].
  - exists []. split; reflexivity.
  - simpl. destruct (isWhiteSpace c) eqn:Hc.
    + destruct IH as (p & Hs & Hp). exists (c :: p). split.
      * simpl. congruence.
      * simpl. rewrite Hc. exact Hp.
    + exists []. split; reflexivity.
Qed.

Lemma forallb_rev (f : N -> bool) (l : jsstring) :
  forallb f l = true -> forallb f (rev l) = true.
Proof.
  rewrite !forallb_forall. intros H x Hx. apply H. apply in_rev. exact Hx.
Qed.

Lemma trimEnd_split (s : jsstring) :
  exists q, s = trimEnd s ++ q /\ forallb isWhiteSpace q = true.
Proof.
  unfold trimEnd. destruct (trimStart_split (rev s)) as (p & Hs & Hp).
  exists (rev p). split.
  - rewrite <- rev_app_distr, <- Hs, rev_involutive. reflexivity.
  - apply forallb_rev. exact Hp.
Qed.

Lemma trim_split (s : jsstring) :
  exists p q, s = p ++ trim s ++ q
              /\ forallb isWhiteSpace p = true
              /\ forallb isWhiteSpace q = true.
Proof.
  destruct (trimStart_split s) as (p & Hs & Hp).
  destruct (trimEnd_split (trimStart s)) as (q & Ht & Hq).
  exists p, q. unfold trim. rewrite <- Ht. auto.
Qed.

Lemma removeAll_blank (Q : N -> bool) (p : jsstring) :
  forallb isWhiteSpace p = true ->
  removeAll isWhiteSpace (removeAll Q p) = [].
Proof.
  induction p as [|c p IH]; simpl; intros H; [reflexivity|].
  apply andb_prop in H. destruct H as [Hc Hp].
  destruct (Q c); simpl; [auto|]. rewrite Hc. simpl. auto.
Qed.

(** Trimming first changes nothing once all white space is removed. *)
Lemma stripped_unquoted (s : jsstring) : Client.stripped s = unquoted s.
Proof.
  unfold Client.stripped.
  assert (E : removeAll isWhiteSpace (removeAll isQuote (trim s))
              = removeAll isWhiteSpace (removeAll isQuote s)).
  { destruct (trim_split s) as (p & q & Hs & Hp & Hq).
    rewrite Hs at 2. rewrite !removeAll_app.
    rewrite (removeAll_blank isQuote p Hp), (removeAll_blank isQuote q Hq).
    rewrite app_nil_r. reflexivity. }
  rewrite E. unfold unquoted, removeAll. clear E.
  induction s as [|c s IH]; simpl; [reflexivity|].
  destruct (isQuote c); simpl.
  - rewrite orb_true_r. simpl. exact IH.
  - rewrite orb_false_r. destruct (isWhiteSpace c); simpl; congruence.
Qed.

Lemma removeAll_dash_unquoted (s : jsstring) :
  removeAll isDash (unquoted s) = reduce s.
Proof.
  unfold removeAll, unquoted, reduce.
  induction s as [|c s IH]; simpl; [reflexivity|].
  destruct (isWhiteSpace c || isQuote c); simpl; [exact IH|].
  destruct (isDash c); simpl; congruence.
Qed.

(** The three outcomes of [validateUUID], by the shape of the reduced
    input. *)
Lemma validateUUID_cases (s : jsstring) :
  Client.validateUUID s =
  match s with
  | [] => Throw (ErrorObj (lit "Notion ID cannot be empty"))
  | _ :: _ =>
      if test_hex32 (reduce s) then Ok (Client.dashed (reduce s))
      else Throw (ErrorObj
                    (lit "Invalid Notion ID format: " ++ unquoted s
                     ++ lit ". Expected a 32-character hexadecimal string."))
  end.
Proof.
  destruct s as [|c s]; [reflexivity|].
  unfold Client.validateUUID.
  rewrite stripped_unquoted, removeAll_dash_unquoted.
  destruct (test_hex32 (reduce (c :: s))); reflexivity.
Qed.

End Strings.

Section Canonical.

(** A string of exactly 32 code units, spelled out. *)
Ltac spell c :=
  do 32 (destruct c as [|? c]; [discriminate|]);
  destruct c; [|discriminate].

Ltac split_all H :=
  simpl in H;
  repeat match type of H with
         | _ && _ = true =>
             let H1 := fresh "Hd" in
             apply andb_prop in H; destruct H as [H1 H]
         end.

Lemma has_form_dashed (digit : N -> bool) (c : jsstring) :
  length c = 32%nat -> forallb digit c = true ->
  has_form digit (Client.dashed c) = true.
Proof.
  intros Hlen Hall. spell c. split_all Hall.
  unfold has_form, Client.dashed, slice, sliceFrom. simpl.
  repeat match goal with
         | E : digit _ = true |- _ => rewrite E; clear E
         end.
  reflexivity.
Qed.

Lemma hex_kept (x : N) :
  isHexDigit x = true ->
  negb (isWhiteSpace x || isQuote x || isDash x) = true.
Proof.
  unfold isHexDigit, isWhiteSpace, isQuote, isDash. intros H.
  rewrite !orb_true_iff, !andb_true_iff, !N.leb_le in H.
  apply negb_true_iff.
  rewrite !orb_false_iff, !andb_false_iff, !N.leb_gt, !N.eqb_neq.
  lia.
Qed.

Lemma reduce_app (a b : jsstring) : reduce (a ++ b) = reduce a ++ reduce b.
Proof. unfold reduce. apply List.filter_app. Qed.

Lemma reduce_hex (l : jsstring) :
  forallb isHexDigit l = true -> reduce l = l.
Proof.
  induction l as [|x l IH]; [reflexivity|].
  cbn [forallb]. intros H. apply andb_prop in H. destruct H as [Hx Hl].
  unfold reduce. cbn [List.filter]. rewrite (hex_kept x Hx).
  f_equal. apply IH. exact Hl.
Qed.

Lemma forallb_firstn (f : N -> bool) (n : nat) (l : jsstring) :
  forallb f l = true -> forallb f (firstn n l) = true.
Proof.
  revert l. induction n as [|n IH]; intros [|x l]; simpl; auto.
  intros H. apply andb_prop in H. destruct H as [-> Hl]. simpl. auto.
Qed.

Lemma forallb_skipn (f : N -> bool) (n : nat) (l : jsstring) :
  forallb f l = true -> forallb f (skipn n l) = true.
Proof.
  revert l. induction n as [|n IH]; intros [|x l]; simpl; auto.
  intros H. apply andb_prop in H. destruct H as [_ Hl]. auto.
Qed.

Lemma forallb_slice (f : N -> bool) (a b : nat) (l : jsstring) :
  forallb f l = true -> forallb f (slice a b l) = true.
Proof. intros H. apply forallb_firstn, forallb_skipn, H. Qed.

(** The five slices of the return statement cover the string once. *)
Lemma slices_join (c : jsstring) :
  slice 0 8 c ++ slice 8 12 c ++ slice 12 16 c ++ slice 16 20 c
  ++ sliceFrom 20 c = c.
Proof.
  unfold slice, sliceFrom. cbn [Nat.sub skipn].
  change 20%nat with (4 + 16)%nat. rewrite <- (skipn_skipn 4 16 c).
  rewrite firstn_skipn.
  change 16%nat with (4 + 12)%nat. rewrite <- (skipn_skipn 4 12 c).
  rewrite firstn_skipn.
  change 12%nat with (4 + 8)%nat. rewrite <- (skipn_skipn 4 8 c).
  rewrite firstn_skipn. apply firstn_skipn.
Qed.

Lemma reduce_dashed (c : jsstring) :
  forallb isHexDigit c = true -> reduce (Client.dashed c) = c.
Proof.
  intros Hall. unfold Client.dashed. rewrite !reduce_app.
  change (reduce (lit "-")) with (@nil N). cbn [app].
  rewrite !reduce_hex by (apply forallb_slice || apply forallb_skipn; exact Hall).
  apply slices_join.
Qed.

Lemma lower_is_hex (x : N) : isLowerHexDigit x = true -> isHexDigit x = true.
Proof.
  unfold isLowerHexDigit, isHexDigit. intros H. rewrite H. reflexivity.
Qed.

End Canonical.

Section ValidateUUID.

Lemma reduced_nonempty (s : jsstring) :
  test_hex32 (reduce s) = true -> s <> [].
Proof.
  intros H ->. discriminate H.
Qed.

Lemma validateUUID_accepts (s : jsstring) :
  test_hex32 (reduce s) = true ->
  Client.validateUUID s = Ok (Client.dashed (reduce s)).
Proof.
  intros H. rewrite validateUUID_cases.
  destruct s as [|c s]; [discriminate H|]. rewrite H. reflexivity.
Qed.

Lemma validateUUID_Ok_inv (s u : jsstring) :
  Client.validateUUID s = Ok u ->
  test_hex32 (reduce s) = true /\ u = Client.dashed (reduce s).
Proof.
  rewrite validateUUID_cases. destruct s as [|c s]; [discriminate|].
  destruct (test_hex32 (reduce (c :: s))); [|discriminate].
  intros H. injection H as <-. split; reflexivity.
Qed.

(** C1, as stated, fails on an identifier written in capitals: the result
    keeps the capitals, so it is not the lowercase canonical form. *)
Lemma validateUUID_keeps_capitals :
  test_hex32 (reduce (lit "ABCDEF0123456789ABCDEF0123456789")) = true
  /\ ~ (exists u,
          Client.validateUUID (lit "ABCDEF0123456789ABCDEF0123456789") = Ok u
          /\ canonical u = true).
Proof.
  split; [vm_compute; reflexivity|].
  intros (u & Hu & Hc). vm_compute in Hu. injection Hu as <-.
  vm_compute in Hc. discriminate Hc.
Qed.

(** C1, amended: an input that reduces to exactly 32 hex characters is
    accepted; the result has 36 characters, dashes at positions 8, 13, 18
    and 23 and hex digits elsewhere, and its digits are those of the input
    in the same order and the same case.  It is the lowercase canonical form
    when the digits of the input are lowercase. *)
Theorem validateUUID_groups (s : jsstring) :
  test_hex32 (reduce s) = true ->
  exists u,
    Client.validateUUID s = Ok u
    /\ grouped u = true
    /\ reduce u = reduce s
    /\ (forallb isLowerHexDigit (reduce s) = true -> canonical u = true).
Proof.
  intros H. exists (Client.dashed (reduce s)).
  pose proof H as H'. unfold test_hex32 in H'.
  apply andb_prop in H'. destruct H' as [Hlen Hall].
  apply Nat.eqb_eq in Hlen.
  split; [apply validateUUID_accepts, H|].
  split; [apply has_form_dashed; assumption|].
  split; [apply reduce_dashed, Hall|].
  intros Hlow. apply has_form_dashed; assumption.
Qed.

Lemma validateUUID_groups_witness :
  exists u,
    Client.validateUUID (lit " 'ABCDEF01-2345-6789-abcd-ef0123456789' ") = Ok u
    /\ grouped u = true
    /\ reduce u = reduce (lit " 'ABCDEF01-2345-6789-abcd-ef0123456789' ")
    /\ (forallb isLowerHexDigit
          (reduce (lit " 'ABCDEF01-2345-6789-abcd-ef0123456789' ")) = true ->
        canonical u = true).
Proof.
  apply (validateUUID_groups (lit " 'ABCDEF01-2345-6789-abcd-ef0123456789' ")).
  vm_compute. reflexivity.
Defined.

(** C10: validation is idempotent on its own results. *)
Theorem validateUUID_idempotent (s u : jsstring) :
  Client.validateUUID s = Ok u -> Client.validateUUID u = Ok u.
Proof.
  intros H. apply validateUUID_Ok_inv in H. destruct H as [Hhex ->].
  pose proof Hhex as H'. unfold test_hex32 in H'.
  apply andb_prop in H'. destruct H' as [_ Hall].
  rewrite validateUUID_accepts; rewrite (reduce_dashed _ Hall); auto.
Qed.

Lemma validateUUID_idempotent_witness :
  Client.validateUUID (lit "0123456789abcdef0123456789ABCDEF")
    = Ok (lit "01234567-89ab-cdef-0123-456789ABCDEF")
  /\ Client.validateUUID (lit "01234567-89ab-cdef-0123-456789ABCDEF")
    = Ok (lit "01234567-89ab-cdef-0123-456789ABCDEF").
Proof.
  split; [vm_compute; reflexivity|].
  apply (validateUUID_idempotent (lit "0123456789abcdef0123456789ABCDEF")).
  vm_compute. reflexivity.
Defined.

End ValidateUUID.

(* ===================================================================== *)
(** ** The client's requests *)
(* ===================================================================== *)

Section ClientRequests.

Context (host : Host) (c : Client.NotionClient).

(** Every call of [request] issues exactly one network request, whatever
    the answer. *)
Lemma request_log (endpoint method : jsstring) (body : value)
  (log : list HttpRequest) :
  snd (Client.request host c endpoint method body log)
  = log ++ [sent c endpoint method body].
Proof.
  unfold Client.request, sent.
  destruct (fetch host log _) as [e|status data]; [reflexivity|].
  destruct (negb (response_ok status)); [|reflexivity].
  destruct (Client.api_error host status data endpoint); reflexivity.
Qed.

(** A successful response is returned as it is. *)
Lemma request_ok (endpoint method : jsstring) (body : value)
  (log : list HttpRequest) (status : Z) (data : value) :
  fetch host log (sent c endpoint method body) = Response status data ->
  response_ok status = true ->
  Client.request host c endpoint method body log
  = (Ok data, log ++ [sent c endpoint method body]).
Proof.
  intros Hf Hok. unfold Client.request. fold (sent c endpoint method body).
  rewrite Hf, Hok. reflexivity.
Qed.

(** [request] only ever throws [Error] instances. *)
Lemma request_throws_Error (endpoint method : jsstring) (body : value)
  (log log' : list HttpRequest) (e : thrown) :
  Client.request host c endpoint method body log = (Throw e, log') ->
  exists m, e = ErrorObj m.
Proof.
  unfold Client.request.
  destruct (fetch host log _) as [e0|status data].
  - intros H. injection H as <- _. destruct e0; simpl; eauto.
  - destruct (negb (response_ok status)); [|discriminate].
    destruct (Client.api_error host status data endpoint) as [e0|e0];
      intros H; injection H as <- _; destruct e0; simpl; eauto.
Qed.

(** The four operations that validate: a rejected identifier stops them
    before any request. *)
Lemma getPage_invalid (id : jsstring) (e : thrown) (log : list HttpRequest) :
  Client.validateUUID id = Throw e ->
  Client.getPage host c id log = (Throw e, log).
Proof.
  intros H. unfold Client.getPage, bind, lift. rewrite H. reflexivity.
Qed.

Lemma updatePage_invalid (id : jsstring) (params : value) (e : thrown)
  (log : list HttpRequest) :
  Client.validateUUID id = Throw e ->
  Client.updatePage host c id params log = (Throw e, log).
Proof.
  intros H. unfold Client.updatePage, bind, lift. rewrite H. reflexivity.
Qed.

Lemma getBlockChildren_invalid (id : jsstring) (params : value) (e : thrown)
  (log : list HttpRequest) :
  Client.validateUUID id = Throw e ->
  Client.getBlockChildren host c id params log = (Throw e, log).
Proof.
  intros H. unfold Client.getBlockChildren, bind, lift. rewrite H.
  reflexivity.
Qed.

Lemma createPage_invalid (parent : Client.Parent)
  (others : list (jsstring * value)) (e : thrown) (log : list HttpRequest) :
  Client.validateUUID (Client.parent_id parent) = Throw e ->
  Client.createPage host c parent others log = (Throw e, log).
Proof.
  intros H. unfold Client.createPage, bind, lift.
  destruct (Client.parent_type parent); rewrite H; reflexivity.
Qed.

Lemma createPage_valid (parent : Client.Parent)
  (others : list (jsstring * value)) (id : jsstring)
  (log : list HttpRequest) :
  Client.validateUUID (Client.parent_id parent) = Ok id ->
  Client.createPage host c parent others log
  = Client.request host c (lit "/v1/pages") Client.POST
      (VObj ((lit "parent",
              Client.Parent_value
                {| Client.parent_type := Client.parent_type parent;
                   Client.parent_id := id |}) :: others)) log.
Proof.
  intros H. unfold Client.createPage, bind, lift, ret.
  destruct (Client.parent_type parent); rewrite H; reflexivity.
Qed.

End ClientRequests.

(** Case analysis on the one [request] of the goal, keeping what it adds to
    the log as [Hlog]. *)
Ltac run_request Hlog v :=
  match goal with
  | |- context [Client.request ?host ?c ?e ?m ?b ?log] =>
      pose proof (request_log host c e m b log) as Hlog;
      destruct (Client.request host c e m b log) as [[v|?] ?]
  end;
  simpl in Hlog |- *.

Section Rejection.

Lemma validateUUID_rejects (s : jsstring) :
  test_hex32 (reduce s) = false ->
  Client.validateUUID s = Throw (ErrorObj (rejection_message s)).
Proof.
  intros H. rewrite validateUUID_cases. destruct s as [|x s]; [reflexivity|].
  rewrite H. reflexivity.
Qed.

(** C3, as stated, fails on an input with a blank inside: the message names
    the input without the blank, and the input itself does not occur in
    it. *)
Lemma validateUUID_message_drops_blank :
  test_hex32 (reduce (lit "z z")) = false
  /\ ~ (exists m,
          Client.validateUUID (lit "z z") = Throw (ErrorObj m)
          /\ includes m (lit "z z") = true).
Proof.
  split; [vm_compute; reflexivity|].
  intros (m & Hm & Hi). vm_compute in Hm. injection Hm as <-.
  vm_compute in Hi. discriminate Hi.
Qed.

(** C3, amended: an input that does not reduce to exactly 32 hex characters
    is rejected.  The message is [Notion ID cannot be empty] for the empty
    input; otherwise it quotes the input with its white space and quotes
    removed and its dashes kept.  [getPage], like the other operations that
    validate, then throws that error without issuing a request. *)
Theorem invalid_identifier_rejected (s : jsstring) :
  test_hex32 (reduce s) = false ->
  Client.validateUUID s = Throw (ErrorObj (rejection_message s))
  /\ (s <> [] ->
      rejection_message s
      = lit "Invalid Notion ID format: " ++ unquoted s
        ++ lit ". Expected a 32-character hexadecimal string.")
  /\ forall (host : Host) (c : Client.NotionClient) (log : list HttpRequest),
       Client.getPage host c s log
       = (Throw (ErrorObj (rejection_message s)), log)
       /\ (forall params,
              Client.updatePage host c s params log
              = (Throw (ErrorObj (rejection_message s)), log))
       /\ (forall params,
              Client.getBlockChildren host c s params log
              = (Throw (ErrorObj (rejection_message s)), log))
       /\ (forall parentType others,
              Client.createPage host c
                {| Client.parent_type := parentType; Client.parent_id := s |}
                others log
              = (Throw (ErrorObj (rejection_message s)), log)).
Proof.
  intros H. pose proof (validateUUID_rejects s H) as Hv.
  split; [exact Hv|]. split.
  - destruct s; [congruence|reflexivity].
  - intros host c log. split; [apply getPage_invalid, Hv|].
    split; [intros; apply updatePage_invalid, Hv|].
    split; [intros; apply getBlockChildren_invalid, Hv|].
    intros; apply createPage_invalid, Hv.
Qed.

Lemma invalid_identifier_rejected_witness :
  Client.validateUUID (lit " 'not an-id' ")
  = Throw (ErrorObj (lit "Invalid Notion ID format: notan-id. Expected a 32-character hexadecimal string."))
  /\ Client.getPage example_host example_client (lit " 'not an-id' ") []
     = (Throw (ErrorObj (lit "Invalid Notion ID format: notan-id. Expected a 32-character hexadecimal string.")), []).
Proof.
  destruct (invalid_identifier_rejected (lit " 'not an-id' ")) as (Hv & _ & Hg);
    [vm_compute; reflexivity|].
  split; [exact Hv|]. exact (proj1 (Hg example_host example_client [])).
Defined.

End Rejection.

(* ===================================================================== *)
(** ** Object fields *)
(* ===================================================================== *)

Section Fields.

Lemma lookup_set_field (k : jsstring) (v : value)
  (fields : list (jsstring * value)) :
  Js.lookup_field k (Js.set_field k v fields) = Some v.
Proof.
  induction fields as [|[k' v'] fields IH]; simpl.
  - destruct (decide (k = k)); congruence.
  - destruct (decide (k' = k)) as [->|Hne]; simpl.
    + destruct (decide (k = k)); congruence.
    + destruct (decide (k' = k)); [contradiction|]. exact IH.
Qed.

Lemma lookup_set_field_other (k k0 : jsstring) (v : value)
  (fields : list (jsstring * value)) :
  k0 <> k ->
  Js.lookup_field k0 (Js.set_field k v fields) = Js.lookup_field k0 fields.
Proof.
  intros Hne. induction fields as [|[k' v'] fields IH]; simpl.
  - destruct (decide (k = k0)); congruence.
  - destruct (decide (k' = k)) as [->|Hk]; simpl.
    + destruct (decide (k = k0)); congruence.
    + destruct (decide (k' = k0)); [reflexivity|]. exact IH.
Qed.

Lemma field_set_field (k : jsstring) (v : value)
  (fields : list (jsstring * value)) :
  Js.field k (Js.set_field k v fields) = v.
Proof. unfold Js.field. rewrite lookup_set_field. reflexivity. Qed.

End Fields.

(* ===================================================================== *)
(** ** Tool handlers *)
(* ===================================================================== *)

(** Opening a handler down to its [try] and [catch]. *)
Ltac unfold_handlers :=
  unfold Tools.get_current_user_handler, Tools.list_users_handler,
    Tools.search_handler, Tools.get_page_handler,
    Tools.create_page_handler, Tools.get_database_handler,
    Tools.create_database_handler, Tools.query_database_handler,
    Tools.get_block_children_handler,
    Tools.append_block_children_handler, Tools.get_comments_handler,
    Tools.create_comment_handler, Tools.get_all_pages_handler;
  unfold try_catch, bind, ret, lift.

Section ToolHandlers.

Context (host : Host) (c : Client.NotionClient).

(** No handler lets an exception out. *)
Lemma handler_returns (call : Tools.ToolCall) (log : list HttpRequest) :
  exists r, fst (Tools.handler host c call log) = Ok r.
Proof.
  destruct call; unfold Tools.handler;
    unfold_handlers;
    match goal with
    | |- context [match ?m log with _ => _ end] =>
        destruct (m log) as [[v|e] log']
    end;
    try (eexists; reflexivity).
  destruct (Tools.allPages_text host v); eexists; reflexivity.
Qed.

(** C2: when the Client operation that a handler awaits throws, the handler
    returns, and what it returns is one text item that reads
    [Error <action>: <message>]. *)
Theorem client_failure_becomes_text (call : Tools.ToolCall)
  (log log' : list HttpRequest) (e : thrown) :
  Tools.client_call host c call log = (Throw e, log') ->
  Tools.handler host c call log
  = (Ok {| Tools.content :=
             [{| Tools.type := lit "text";
                 Tools.text := lit "Error " ++ Tools.action (Tools.tool_of call)
                               ++ lit ": " ++ Js.message_of e |}] |},
     log').
Proof.
  intros H. destruct call; unfold Tools.client_call in H;
    unfold Tools.handler;
    unfold_handlers; rewrite H; reflexivity.
Qed.

(** The request of the [append-block-children] handler, issued whatever the
    block identifier looks like and whatever the network answers. *)
Lemma append_block_children_log (blockId content : jsstring)
  (log : list HttpRequest) :
  snd (Tools.handler host c (Tools.append_block_children blockId content) log)
  = log ++ [sent c (lit "/v1/blocks/" ++ blockId ++ lit "/children")
              (lit "PATCH")
              (VObj [(lit "children",
                      VArr [Tools.paragraph_block content])])].
Proof.
  unfold Tools.handler, Tools.append_block_children_handler, try_catch, bind,
    Client.appendBlockChildren.
  run_request Hlog v; exact Hlog.
Qed.

(** C7: the [append-block-children] handler passes the Client one paragraph
    block around the content, and that is what the request carries. *)
Theorem append_block_children_one_paragraph (blockId content : jsstring)
  (log : list HttpRequest) :
  let block :=
    VObj [(lit "object", VStr (lit "block"));
          (lit "type", VStr (lit "paragraph"));
          (lit "paragraph",
           VObj [(lit "rich_text",
                  VArr [VObj [(lit "type", VStr (lit "text"));
                              (lit "text",
                               VObj [(lit "content", VStr content)])]])])] in
  Tools.client_call host c (Tools.append_block_children blockId content)
  = Client.appendBlockChildren host c blockId (VArr [block])
  /\ snd (Tools.handler host c (Tools.append_block_children blockId content)
            log)
     = log ++ [sent c (lit "/v1/blocks/" ++ blockId ++ lit "/children")
                 (lit "PATCH") (VObj [(lit "children", VArr [block])])].
Proof.
  split; [reflexivity|]. apply append_block_children_log.
Qed.

(** C9: with a sort field, the search request sorts in the direction given,
    and descending when none is given. *)
Theorem search_sort_direction (query : option jsstring)
  (filter : option Tools.ObjectKind) (sort : Tools.SortField)
  (sortDirection : option Tools.SortDirection) (pageSize : option Z)
  (startCursor : option jsstring) (log : list HttpRequest) :
  let params :=
    Tools.searchParams query filter (Some sort) sortDirection pageSize
      startCursor in
  snd (Tools.handler host c
         (Tools.search query filter (Some sort) sortDirection pageSize
            startCursor) log)
  = log ++ [sent c (lit "/v1/search") (lit "POST") (VObj params)]
  /\ Js.field (lit "sort") params
     = VObj [(lit "timestamp", VStr (lit "last_edited_time"));
             (lit "direction",
              VStr match sortDirection with
                   | Some Tools.ascending => lit "ascending"
                   | Some Tools.descending => lit "descending"
                   | None => lit "descending"
                   end)].
Proof.
  split.
  - unfold Tools.handler, Tools.search_handler, try_catch, bind, Client.search.
    run_request Hlog v; exact Hlog.
  - unfold Tools.searchParams. cbv beta iota zeta. rewrite field_set_field.
    destruct sort. destruct sortDirection as [[]|]; reflexivity.
Qed.

End ToolHandlers.

(** C5: [getDatabase], [getBlock], [queryDatabase], [appendBlockChildren],
    [getComments], [createDatabase] and [createComment] send a request for an
    identifier that validation rejects: the identifier goes into the URL or
    the body as it is.  The [append-block-children] tool reaches
    [appendBlockChildren] this way. *)
Theorem unvalidated_identifier_is_sent (host : Host)
  (c : Client.NotionClient) (log : list HttpRequest) :
  Client.validateUUID (lit "not-an-id")
  = Throw (ErrorObj (lit "Invalid Notion ID format: not-an-id. Expected a 32-character hexadecimal string."))
  /\ snd (Client.getDatabase host c (lit "not-an-id") log)
     = log ++ [sent c (lit "/v1/databases/not-an-id") (lit "GET") VUndefined]
  /\ snd (Client.getBlock host c (lit "not-an-id") log)
     = log ++ [sent c (lit "/v1/blocks/not-an-id") (lit "GET") VUndefined]
  /\ snd (Client.queryDatabase host c (lit "not-an-id") (VObj []) log)
     = log ++ [sent c (lit "/v1/databases/not-an-id/query") (lit "POST")
                 (VObj [])]
  /\ snd (Client.appendBlockChildren host c (lit "not-an-id") (VArr []) log)
     = log ++ [sent c (lit "/v1/blocks/not-an-id/children") (lit "PATCH")
                 (VObj [(lit "children", VArr [])])]
  /\ snd (Client.getComments host c (lit "not-an-id") None None log)
     = log ++ [sent c
                 (lit "/v1/comments"
                  ++ Client.queryString host
                       [(lit "block_id", lit "not-an-id");
                        (lit "page_size", lit "100")])
                 (lit "GET") VUndefined]
  /\ snd (Client.createDatabase host c
            (Tools.createDatabase_params (lit "not-an-id") (lit "T") None) log)
     = log ++ [sent c (lit "/v1/databases") (lit "POST")
                 (Tools.createDatabase_params (lit "not-an-id") (lit "T")
                    None)]
  /\ snd (Client.createComment host c
            (Tools.createComment_params (lit "not-an-id") (lit "hi")) log)
     = log ++ [sent c (lit "/v1/comments") (lit "POST")
                 (Tools.createComment_params (lit "not-an-id") (lit "hi"))]
  /\ snd (Tools.handler host c
            (Tools.append_block_children (lit "not-an-id") (lit "hi")) log)
     = log ++ [sent c (lit "/v1/blocks/not-an-id/children") (lit "PATCH")
                 (VObj [(lit "children",
                         VArr [Tools.paragraph_block (lit "hi")])])].
Proof.
  split; [vm_compute; reflexivity|].
  unfold Client.getDatabase, Client.getBlock, Client.queryDatabase,
    Client.appendBlockChildren, Client.getComments, Client.createDatabase,
    Client.createComment.
  rewrite !request_log, append_block_children_log. repeat split.
Qed.

Section CreatePage.

Context (host : Host) (c : Client.NotionClient).

(** C4, as stated, fails for an empty title: the mapping has no [Name] key
    and still no [Name] property is added; the request carries empty
    properties. *)
Lemma create_page_empty_title_adds_nothing :
  Js.has_field (lit "Name")
    (Tools.pageProperties Client.database_id (lit "") None) = false
  /\ Tools.pageProperties Client.database_id (lit "") None
     <> specified_pageProperties (lit "") None
  /\ snd (Tools.handler example_host example_client
            (Tools.create_page Client.database_id
               (lit "0123456789abcdef0123456789abcdef") (lit "") None None)
            [])
     = [sent example_client (lit "/v1/pages") (lit "POST")
          (VObj [(lit "parent",
                  VObj [(lit "type", VStr (lit "database_id"));
                        (lit "database_id",
                         VStr (lit "01234567-89ab-cdef-0123-456789abcdef"))]);
                 (lit "properties", VObj []);
                 (lit "children", VUndefined)])].
Proof.
  split; [reflexivity|]. split; [vm_compute; discriminate|].
  vm_compute. reflexivity.
Qed.

(** A [Name] that the caller sets to [null] is replaced. *)
Example create_page_null_Name_replaced :
  Tools.pageProperties Client.database_id (lit "T")
    (Some [(lit "Name", VNull)])
  = [(lit "Name", Tools.title_property (lit "T"))].
Proof. reflexivity. Qed.

(** C4, amended: under a database parent the request carries the caller's
    mapping (the empty one if omitted) as properties.  When the title is not
    empty and the mapping has no [Name] or a falsy one, [Name] is set to the
    title property built from the title and every other key is left as it
    was; otherwise the mapping is sent unchanged. *)
Theorem create_page_database_properties (parentId title id : jsstring)
  (properties : option (list (jsstring * value))) (content : option jsstring)
  (log : list HttpRequest) :
  Client.validateUUID parentId = Ok id ->
  let given := match properties with Some p => p | None => [] end in
  let props := Tools.pageProperties Client.database_id title properties in
  snd (Tools.handler host c
         (Tools.create_page Client.database_id parentId title properties
            content) log)
  = log ++ [sent c (lit "/v1/pages") (lit "POST")
              (VObj [(lit "parent",
                      VObj [(lit "type", VStr (lit "database_id"));
                            (lit "database_id", VStr id)]);
                     (lit "properties", VObj props);
                     (lit "children", Tools.children_of content)])]
  /\ (title <> [] -> Js.truthy (Js.field (lit "Name") given) = false ->
      Js.field (lit "Name") props
      = VObj [(lit "title",
               VArr [VObj [(lit "type", VStr (lit "text"));
                           (lit "text",
                            VObj [(lit "content", VStr title)])]])]
      /\ forall k, k <> lit "Name" ->
                   Js.lookup_field k props = Js.lookup_field k given)
  /\ (title = [] \/ Js.truthy (Js.field (lit "Name") given) = true ->
      props = given).
Proof.
  intros Hid given props. split; [|split].
  - unfold Tools.handler, Tools.create_page_handler, try_catch, bind.
    cbv zeta. erewrite createPage_valid by exact Hid.
    run_request Hlog v; exact Hlog.
  - intros Ht Hn. subst props. unfold Tools.pageProperties. fold given.
    cbv zeta. rewrite Hn.
    destruct title as [|x title]; [congruence|]. cbn [Js.truthy length Nat.eqb negb andb].
    split; [apply field_set_field|].
    intros k Hk. apply lookup_set_field_other. exact Hk.
  - intros H. subst props. unfold Tools.pageProperties. fold given. cbv zeta.
    destruct H as [->|Hn].
    + reflexivity.
    + rewrite Hn, andb_false_r. reflexivity.
Qed.


End CreatePage.

Lemma create_page_database_properties_witness :
  snd (Tools.handler example_host example_client
         (Tools.create_page Client.database_id
            (lit "0123456789abcdef0123456789abcdef") (lit "Foo") None None) [])
  = [sent example_client (lit "/v1/pages") (lit "POST")
       (VObj [(lit "parent",
               VObj [(lit "type", VStr (lit "database_id"));
                     (lit "database_id",
                      VStr (lit "01234567-89ab-cdef-0123-456789abcdef"))]);
              (lit "properties",
               VObj [(lit "Name", Tools.title_property (lit "Foo"))]);
              (lit "children", VUndefined)])].
Proof.
  refine (proj1 (create_page_database_properties example_host example_client
                   (lit "0123456789abcdef0123456789abcdef") (lit "Foo")
                   (lit "01234567-89ab-cdef-0123-456789abcdef")
                   None None [] _)).
  vm_compute. reflexivity.
Defined.

Section AllPages.

Context (host : Host) (c : Client.NotionClient).

(** C6: without arguments, [get-all-pages] sends a search for pages with
    page size 100 and no query; on a successful answer that holds a list of
    results, the handler returns one text item: the line
    [Found <number of results> pages.], then [More pages available.] when
    [has_more] is true (truthy) and [No more pages available.] otherwise,
    an empty line and the serialised answer. *)
Theorem get_all_pages_default (log : list HttpRequest) :
  let params :=
    [(lit "filter",
      VObj [(lit "value", VStr (lit "page"));
            (lit "property", VStr (lit "object"))]);
     (lit "page_size", VNum 100);
     (lit "start_cursor", VUndefined)] in
  let req := sent c (lit "/v1/search") (lit "POST") (VObj params) in
  snd (Tools.handler host c (Tools.get_all_pages None None) log) = log ++ [req]
  /\ Js.has_field (lit "query") params = false
  /\ forall (status : Z) (fields : list (jsstring * value))
            (results : list value),
       fetch host log req = Response status (VObj fields) ->
       response_ok status = true ->
       Js.field (lit "results") fields = VArr results ->
       fst (Tools.handler host c (Tools.get_all_pages None None) log)
       = Ok {| Tools.content :=
                 [{| Tools.type := lit "text";
                     Tools.text :=
                       lit "Found "
                       ++ Js.decimal (Z.of_nat (length results))
                       ++ lit " pages. "
                       ++ (if Js.truthy (Js.field (lit "has_more") fields)
                           then lit "More pages available."
                           else lit "No more pages available.")
                       ++ [10; 10]
                       ++ JSON_stringify_indent2 host (VObj fields) |}] |}.
Proof.
  intros params req. split; [|split; [reflexivity|]].
  - unfold Tools.handler, Tools.get_all_pages_handler, try_catch, bind,
      Client.search. cbv zeta.
    run_request Hlog v.
    + destruct (Tools.allPages_text host v); exact Hlog.
    + exact Hlog.
  - intros status fields results Hf Hok Hr.
    unfold Tools.handler, Tools.get_all_pages_handler, try_catch, bind,
      Client.search. cbv zeta.
    erewrite request_ok by eassumption.
    unfold lift, ret, Tools.allPages_text, Js.get. rewrite Hr.
    destruct (decide (lit "length" = lit "length")); [|congruence].
    reflexivity.
Qed.

End AllPages.

Lemma get_all_pages_default_witness :
  fst (Tools.handler
         {| fetch := fun _ _ =>
              Response 200
                (VObj [(lit "object", VStr (lit "list"));
                       (lit "results",
                        VArr [VObj [(lit "object", VStr (lit "page"))];
                              VObj [(lit "object", VStr (lit "page"))]]);
                       (lit "next_cursor", VStr (lit "abc"));
                       (lit "has_more", VBool true)]);
            JSON_stringify := Js.toString;
            JSON_stringify_indent2 := Js.toString;
            URLSearchParams_toString := fun _ => [] |}
         example_client (Tools.get_all_pages None None) [])
  = Ok {| Tools.content :=
            [{| Tools.type := lit "text";
                Tools.text :=
                  lit "Found 2 pages. More pages available." ++ [10; 10]
                  ++ lit "[object Object]" |}] |}.
Proof.
  refine (proj2 (proj2 (get_all_pages_default _ example_client []))
            200%Z
            [(lit "object", VStr (lit "list"));
             (lit "results",
              VArr [VObj [(lit "object", VStr (lit "page"))];
                    VObj [(lit "object", VStr (lit "page"))]]);
             (lit "next_cursor", VStr (lit "abc"));
             (lit "has_more", VBool true)]
            [VObj [(lit "object", VStr (lit "page"))];
             VObj [(lit "object", VStr (lit "page"))]]
            _ _ _); reflexivity.
Defined.

Lemma client_failure_becomes_text_witness :
  Tools.handler example_host example_client (Tools.get_page (lit "xyz")) []
  = (Ok (Tools.text_result
           (lit "Error retrieving page: Invalid Notion ID format: xyz. Expected a 32-character hexadecimal string.")),
     []).
Proof.
  apply (client_failure_becomes_text example_host example_client
           (Tools.get_page (lit "xyz")) [] []
           (ErrorObj (lit "Invalid Notion ID format: xyz. Expected a 32-character hexadecimal string."))).
  vm_compute. reflexivity.
Defined.

(* ===================================================================== *)
(** ** Registration *)
(* ===================================================================== *)

Section Registration.

Context (toolConfig : gmap jsstring bool).

Let step := guarded_tool toolConfig.

Lemma registerNotionTools_fold (server : Tools.McpServer) :
  Tools.registerNotionTools server toolConfig
  = fold_left step Tools.all_tools server.
Proof. reflexivity. Qed.

Lemma fold_step (tools : list Tools.Tool) (server : Tools.McpServer) :
  fold_left step tools server
  = server
    ++ List.map Tools.registration
         (List.filter (fun t => Tools.not_false toolConfig (Tools.name t))
            tools).
Proof.
  revert server. induction tools as [|t tools IH]; intros server.
  - simpl. rewrite app_nil_r. reflexivity.
  - cbn [fold_left List.filter]. rewrite IH.
    unfold step, guarded_tool, Tools.server_tool.
    destruct (Tools.not_false toolConfig (Tools.name t)).
    + rewrite <- app_assoc. reflexivity.
    + reflexivity.
Qed.

Lemma all_tools_complete (t : Tools.Tool) : In t Tools.all_tools.
Proof. destruct t; simpl; tauto. Qed.

(** The tools listed after registration on a new server are the tools whose
    name the configuration does not map to [false], in source order. *)
Lemma listed_registerNotionTools :
  Tools.listed (Tools.registerNotionTools Tools.new_server toolConfig)
  = List.map Tools.name
      (List.filter (fun t => Tools.not_false toolConfig (Tools.name t))
         Tools.all_tools).
Proof.
  rewrite registerNotionTools_fold, fold_step. unfold Tools.listed.
  cbn [Tools.new_server app]. rewrite List.map_map. reflexivity.
Qed.

(** C8: a name that the configuration maps to [false] is not in the tool
    list; a tool whose name the configuration leaves out or maps to [true]
    is registered and listed. *)
Theorem tool_listed_unless_false :
  (forall n : jsstring,
      toolConfig !! n = Some false ->
      ~ In n (Tools.listed
                (Tools.registerNotionTools Tools.new_server toolConfig)))
  /\ (forall t : Tools.Tool,
         toolConfig !! Tools.name t = None
         \/ toolConfig !! Tools.name t = Some true ->
         In (Tools.registration t)
           (Tools.registerNotionTools Tools.new_server toolConfig)
         /\ In (Tools.name t)
              (Tools.listed
                 (Tools.registerNotionTools Tools.new_server toolConfig))).
Proof.
  split.
  - intros n Hn Hin. rewrite listed_registerNotionTools in Hin.
    apply in_map_iff in Hin. destruct Hin as (t & <- & Ht).
    apply filter_In in Ht. destruct Ht as [_ Ht].
    unfold Tools.not_false in Ht. rewrite Hn in Ht. discriminate Ht.
  - intros t Ht.
    assert (Hen : Tools.not_false toolConfig (Tools.name t) = true).
    { unfold Tools.not_false. destruct Ht as [-> | ->]; reflexivity. }
    assert (Hf : In t (List.filter
                         (fun t => Tools.not_false toolConfig (Tools.name t))
                         Tools.all_tools)).
    { apply filter_In. split; [apply all_tools_complete|exact Hen]. }
    split.
    + rewrite registerNotionTools_fold, fold_step. cbn [Tools.new_server app].
      apply in_map. exact Hf.
    + rewrite listed_registerNotionTools. apply in_map. exact Hf.
Qed.

End Registration.

(** The tool list under the configuration of the start-up file. *)
Example shipped_tool_list :
  Tools.listed (Tools.registerNotionTools Tools.new_server Tools.toolConfig)
  = [lit "get-current-user"; lit "list-users"; lit "search"; lit "get-page";
     lit "create-page"; lit "get-block-children";
     lit "append-block-children"; lit "get-all-pages"].
Proof. vm_compute. reflexivity. Qed.

Lemma tool_listed_unless_false_witness :
  ~ In (lit "get-database")
      (Tools.listed
         (Tools.registerNotionTools Tools.new_server Tools.toolConfig))
  /\ In (lit "get-page")
       (Tools.listed
          (Tools.registerNotionTools Tools.new_server Tools.toolConfig)).
Proof.
  split.
  - apply (proj1 (tool_listed_unless_false Tools.toolConfig)
             (lit "get-database")).
    vm_compute. reflexivity.
  - apply (proj2 (tool_listed_unless_false Tools.toolConfig) Tools.GetPage).
    right. vm_compute. reflexivity.
Defined.

(* ===================================================================== *)
(** ** Further properties of identifier validation *)
(* ===================================================================== *)

(** X1: two accepted identifiers are normalised to the same string exactly
    when they have the same hex digits in the same order and case; dashes,
    quotes and white space of the input make no difference. *)
Theorem validateUUID_same_digits (s1 s2 u1 u2 : jsstring) :
  Client.validateUUID s1 = Ok u1 ->
  Client.validateUUID s2 = Ok u2 ->
  (u1 = u2 <-> reduce s1 = reduce s2).
Proof.
  intros H1 H2.
  apply validateUUID_Ok_inv in H1. destruct H1 as [Hx1 ->].
  apply validateUUID_Ok_inv in H2. destruct H2 as [Hx2 ->].
  unfold test_hex32 in Hx1, Hx2.
  apply andb_prop in Hx1. destruct Hx1 as [_ Ha1].
  apply andb_prop in Hx2. destruct Hx2 as [_ Ha2].
  split.
  - intros E. rewrite <- (reduce_dashed _ Ha1), <- (reduce_dashed _ Ha2), E.
    reflexivity.
  - intros E. rewrite E. reflexivity.
Qed.

Lemma validateUUID_same_digits_witness :
  Ok (lit "01234567-89ab-cdef-0123-456789abcdef")
  = Ok (lit "01234567-89ab-cdef-0123-456789abcdef")
  <-> reduce (lit " 0123456789abcdef-0123456789abcdef")
      = reduce (lit "'01234567-89ab-cdef-0123-456789abcdef'").
Proof.
  split.
  - intros _.
    apply (validateUUID_same_digits
             (lit " 0123456789abcdef-0123456789abcdef")
             (lit "'01234567-89ab-cdef-0123-456789abcdef'")
             (lit "01234567-89ab-cdef-0123-456789abcdef")
             (lit "01234567-89ab-cdef-0123-456789abcdef"));
      vm_compute; reflexivity.
  - intros _. reflexivity.
Defined.

(** X2: accepted identifiers whose digits differ, be it only in the case of
    a letter, are not unified: [getPage] sends them to different URLs. *)
Theorem validateUUID_case_sensitive (s1 s2 u1 u2 : jsstring) :
  Client.validateUUID s1 = Ok u1 ->
  Client.validateUUID s2 = Ok u2 ->
  reduce s1 <> reduce s2 ->
  forall (host : Host) (c : Client.NotionClient) (log : list HttpRequest),
    snd (Client.getPage host c s1 log) <> snd (Client.getPage host c s2 log).
Proof.
  intros H1 H2 Hne host c log.
  unfold Client.getPage, bind, lift. rewrite H1, H2. rewrite !request_log.
  intros E. apply app_inv_head in E.
  apply (f_equal (fun l => match l with [r] => url r | _ => [] end)) in E.
  unfold sent in E. cbn [url] in E.
  apply app_inv_head in E. apply app_inv_head in E. subst u2.
  apply Hne.
  apply validateUUID_Ok_inv in H1. destruct H1 as [Hx1 E1].
  apply validateUUID_Ok_inv in H2. destruct H2 as [Hx2 E2].
  unfold test_hex32 in Hx1, Hx2.
  apply andb_prop in Hx1. destruct Hx1 as [_ Ha1].
  apply andb_prop in Hx2. destruct Hx2 as [_ Ha2].
  rewrite <- (reduce_dashed _ Ha1), <- (reduce_dashed _ Ha2), <- E1, <- E2.
  reflexivity.
Qed.

Lemma validateUUID_case_sensitive_witness :
  snd (Client.getPage example_host example_client
         (lit "abcdef0123456789abcdef0123456789") [])
  <> snd (Client.getPage example_host example_client
            (lit "ABCDEF0123456789ABCDEF0123456789") []).
Proof.
  apply (validateUUID_case_sensitive
           (lit "abcdef0123456789abcdef0123456789")
           (lit "ABCDEF0123456789ABCDEF0123456789")
           (lit "abcdef01-2345-6789-abcd-ef0123456789")
           (lit "ABCDEF01-2345-6789-ABCD-EF0123456789")).
  - vm_compute. reflexivity.
  - vm_compute. reflexivity.
  - vm_compute. discriminate.
Defined.

(* ===================================================================== *)
(** ** Further properties of the client *)
(* ===================================================================== *)

Section ClientOutcomes.

Context (host : Host) (c : Client.NotionClient).

(** X3: when [fetch] or the parsing of the body rejects, [request] throws an
    [Error]: the same one if the rejection was an [Error], otherwise one
    whose message wraps the rejected value.  The request has been issued. *)
Theorem request_rejection (endpoint method : jsstring) (body : value)
  (log : list HttpRequest) (e : thrown) :
  fetch host log (sent c endpoint method body) = Rejected e ->
  Client.request host c endpoint method body log
  = (Throw (ErrorObj
              match e with
              | ErrorObj message => message
              | NonError v =>
                  lit "Unexpected error in Notion API request: "
                  ++ Js.toString v
              end),
     log ++ [sent c endpoint method body]).
Proof.
  intros Hf. unfold Client.request. fold (sent c endpoint method body).
  rewrite Hf. destruct e; reflexivity.
Qed.

(** X4: a response outside 200-299 whose body is an object makes [request]
    throw an [Error] that reports the status, the body's [message] (the
    serialised body when there is none), the endpoint and the body's
    [request_id] ([unknown] when there is none). *)
Theorem request_api_error (endpoint method : jsstring) (body : value)
  (log : list HttpRequest) (status : Z) (fields : list (jsstring * value)) :
  fetch host log (sent c endpoint method body)
  = Response status (VObj fields) ->
  response_ok status = false ->
  Client.request host c endpoint method body log
  = (Throw (ErrorObj
              (lit "Notion API error: " ++ Js.decimal status ++ lit " - "
               ++ (if Js.truthy (Js.field (lit "message") fields)
                   then Js.toString (Js.field (lit "message") fields)
                   else JSON_stringify host (VObj fields))
               ++ [10] ++ lit "Endpoint: " ++ endpoint
               ++ [10] ++ lit "Request ID: "
               ++ (if Js.truthy (Js.field (lit "request_id") fields)
                   then Js.toString (Js.field (lit "request_id") fields)
                   else lit "unknown"))),
     log ++ [sent c endpoint method body]).
Proof.
  intros Hf Hok. unfold Client.request. fold (sent c endpoint method body).
  rewrite Hf, Hok. unfold Client.api_error, Js.get, Js.or_else.
  cbn [negb Client.rethrow].
  destruct (Js.truthy (Js.field (lit "request_id") fields)); reflexivity.
Qed.

(** X5: a response outside 200-299 whose body is JSON [null] does not give
    the API error: reading [message] off the body fails first, and that
    failure is what [request] throws. *)
Theorem request_api_error_null_body (endpoint method : jsstring)
  (body : value) (log : list HttpRequest) (status : Z) :
  fetch host log (sent c endpoint method body) = Response status VNull ->
  response_ok status = false ->
  exists message,
    Client.request host c endpoint method body log
    = (Throw (ErrorObj message), log ++ [sent c endpoint method body])
    /\ isPrefixOf (lit "Notion API error") message = false.
Proof.
  intros Hf Hok. unfold Client.request. fold (sent c endpoint method body).
  rewrite Hf, Hok. cbn [negb Client.api_error Js.get Js.cannot_read].
  eexists. split; reflexivity.
Qed.

(** X6: the operations that validate use the normalised identifier: they
    behave as the plain request at the dashed form of the digits. *)
Theorem validated_operations_normalise (s : jsstring)
  (log : list HttpRequest) :
  test_hex32 (reduce s) = true ->
  Client.getPage host c s log
  = Client.request host c (lit "/v1/pages/" ++ Client.dashed (reduce s))
      (lit "GET") VUndefined log
  /\ (forall params,
         Client.updatePage host c s params log
         = Client.request host c
             (lit "/v1/pages/" ++ Client.dashed (reduce s)) (lit "PATCH")
             params log)
  /\ (forall params,
         Client.getBlockChildren host c s params log
         = Client.request host c
             (lit "/v1/blocks/" ++ Client.dashed (reduce s)
              ++ lit "/children") (lit "GET") params log)
  /\ (forall parentType others,
         Client.createPage host c
           {| Client.parent_type := parentType; Client.parent_id := s |}
           others log
         = Client.request host c (lit "/v1/pages") (lit "POST")
             (VObj ((lit "parent",
                     VObj [(lit "type",
                            VStr (Client.ParentType_name parentType));
                           (Client.ParentType_name parentType,
                            VStr (Client.dashed (reduce s)))]) :: others))
             log).
Proof.
  intros H. pose proof (validateUUID_accepts s H) as Hv.
  unfold Client.getPage, Client.updatePage, Client.getBlockChildren,
    bind, lift.
  rewrite Hv. repeat split.
  intros parentType others. erewrite createPage_valid by exact Hv.
  reflexivity.
Qed.

(** X7: fetching a page with an accepted identifier and an [ok] answer
    returns the parsed body as it is, after exactly one [GET] without body
    to the page's URL. *)
Theorem getPage_success (s u : jsstring) (log : list HttpRequest)
  (status : Z) (data : value) :
  Client.validateUUID s = Ok u ->
  fetch host log (sent c (lit "/v1/pages/" ++ u) (lit "GET") VUndefined)
  = Response status data ->
  response_ok status = true ->
  Client.getPage host c s log
  = (Ok data,
     log ++ [{| url := Client.baseUrl c ++ lit "/v1/pages/" ++ u;
                method := lit "GET";
                headers := standard_headers c;
                body := None |}]).
Proof.
  intros Hv Hf Hok. unfold Client.getPage, bind, lift. rewrite Hv.
  exact (request_ok host c (lit "/v1/pages/" ++ u) (lit "GET") VUndefined
           log status data Hf Hok).
Qed.

End ClientOutcomes.

Lemma request_rejection_witness :
  Client.request
    {| fetch := fun _ _ => Rejected (NonError (VStr (lit "offline")));
       JSON_stringify := Js.toString;
       JSON_stringify_indent2 := Js.toString;
       URLSearchParams_toString := fun _ => [] |}
    example_client (lit "/v1/users/me") (lit "GET") VUndefined []
  = (Throw (ErrorObj (lit "Unexpected error in Notion API request: offline")),
     [sent example_client (lit "/v1/users/me") (lit "GET") VUndefined]).
Proof.
  apply (request_rejection _ example_client (lit "/v1/users/me") (lit "GET")
           VUndefined [] (NonError (VStr (lit "offline")))).
  reflexivity.
Defined.

Lemma request_api_error_witness :
  Client.request
    {| fetch := fun _ _ =>
         Response 404 (VObj [(lit "message", VStr (lit "Not found"))]);
       JSON_stringify := Js.toString;
       JSON_stringify_indent2 := Js.toString;
       URLSearchParams_toString := fun _ => [] |}
    example_client (lit "/v1/users/me") (lit "GET") VUndefined []
  = (Throw (ErrorObj
              (lit "Notion API error: 404 - Not found" ++ [10]
               ++ lit "Endpoint: /v1/users/me" ++ [10]
               ++ lit "Request ID: unknown")),
     [sent example_client (lit "/v1/users/me") (lit "GET") VUndefined]).
Proof.
  apply (request_api_error _ example_client (lit "/v1/users/me") (lit "GET")
           VUndefined [] 404%Z [(lit "message", VStr (lit "Not found"))]);
    reflexivity.
Defined.

Lemma request_api_error_null_body_witness :
  exists message,
    Client.request
      {| fetch := fun _ _ => Response 500 VNull;
         JSON_stringify := Js.toString;
         JSON_stringify_indent2 := Js.toString;
         URLSearchParams_toString := fun _ => [] |}
      example_client (lit "/v1/users/me") (lit "GET") VUndefined []
    = (Throw (ErrorObj message),
       [sent example_client (lit "/v1/users/me") (lit "GET") VUndefined])
    /\ isPrefixOf (lit "Notion API error") message = false.
Proof.
  apply (request_api_error_null_body _ example_client (lit "/v1/users/me")
           (lit "GET") VUndefined [] 500%Z); reflexivity.
Defined.

Lemma validated_operations_normalise_witness :
  Client.getPage example_host example_client
    (lit " '0123456789abcdef0123456789abcdef' ") []
  = Client.request example_host example_client
      (lit "/v1/pages/01234567-89ab-cdef-0123-456789abcdef") (lit "GET")
      VUndefined [].
Proof.
  refine (proj1 (validated_operations_normalise example_host example_client
                   (lit " '0123456789abcdef0123456789abcdef' ") [] _)).
  vm_compute. reflexivity.
Defined.

Lemma getPage_success_witness :
  Client.getPage example_host example_client
    (lit "0123456789abcdef0123456789abcdef") []
  = (Ok empty_list_response,
     [{| url := lit "https://api.notion.com/v1/pages/01234567-89ab-cdef-0123-456789abcdef";
         method := lit "GET";
         headers := standard_headers example_client;
         body := None |}]).
Proof.
  apply (getPage_success example_host example_client
           (lit "0123456789abcdef0123456789abcdef")
           (lit "01234567-89ab-cdef-0123-456789abcdef") [] 200%Z
           empty_list_response); vm_compute; reflexivity.
Defined.

(* ===================================================================== *)
(** ** Further properties of the tool handlers *)
(* ===================================================================== *)

(** Opening a Client operation down to its validation and its request. *)
Ltac unfold_operations :=
  unfold Client.getMe, Client.listUsers, Client.search, Client.getPage,
    Client.createPage, Client.getDatabase, Client.createDatabase,
    Client.queryDatabase, Client.getBlockChildren,
    Client.appendBlockChildren, Client.getComments, Client.createComment;
  unfold bind, lift, ret.

Section HandlerInvariants.

Context (host : Host) (c : Client.NotionClient).

Lemma request_issued (endpoint method : jsstring) (body : value)
  (log : list HttpRequest) :
  issued c log (snd (Client.request host c endpoint method body log)).
Proof. right. exists endpoint, method, body. apply request_log. Qed.

Lemma client_call_issued (call : Tools.ToolCall) (log : list HttpRequest) :
  issued c log (snd (Tools.client_call host c call log)).
Proof.
  destruct call; unfold Tools.client_call; unfold_operations;
    try apply request_issued;
    try (destruct parentType);
    match goal with
    | |- context [Client.validateUUID ?s] =>
        destruct (Client.validateUUID s);
        [apply request_issued | left; reflexivity]
    end.
Qed.

(** A handler adds nothing to the log beyond what its Client call adds. *)
Lemma handler_log (call : Tools.ToolCall) (log : list HttpRequest) :
  snd (Tools.handler host c call log)
  = snd (Tools.client_call host c call log).
Proof.
  destruct call; unfold Tools.handler, Tools.client_call; unfold_handlers;
    match goal with
    | |- context [match ?m log with _ => _ end] =>
        destruct (m log) as [[v|e] log']
    end;
    try reflexivity.
  destruct (Tools.allPages_text host v); reflexivity.
Qed.

(** X8: whatever the arguments and whatever the network does, a handler
    returns, and returns exactly one content item of type [text]. *)
Theorem handler_single_text (call : Tools.ToolCall)
  (log : list HttpRequest) :
  exists t,
    fst (Tools.handler host c call log)
    = Ok {| Tools.content :=
              [{| Tools.type := lit "text"; Tools.text := t |}] |}.
Proof.
  destruct call; unfold Tools.handler; unfold_handlers;
    match goal with
    | |- context [match ?m log with _ => _ end] =>
        destruct (m log) as [[v|e] log']
    end;
    try (eexists; reflexivity).
  destruct (Tools.allPages_text host v); eexists; reflexivity.
Qed.

(** X9: a tool invocation issues at most one network request; it leaves the
    earlier requests in place, and the request it adds goes to a URL under
    the client's base URL with the bearer key, the JSON content type and the
    API version as its headers. *)
Theorem handler_one_request (call : Tools.ToolCall)
  (log : list HttpRequest) :
  exists added,
    snd (Tools.handler host c call log) = log ++ added
    /\ (length added <= 1)%nat
    /\ forall r, In r added ->
         headers r
         = [(lit "Authorization", lit "Bearer " ++ Client.apiKey c);
            (lit "Content-Type", lit "application/json");
            (lit "Notion-Version", Client.apiVersion c)]
         /\ exists endpoint, url r = Client.baseUrl c ++ endpoint.
Proof.
  rewrite handler_log.
  destruct (client_call_issued call log) as [E | (e & m & b & E)]; rewrite E.
  - exists []. rewrite app_nil_r. split; [reflexivity|].
    split; [simpl; lia|]. intros r [].
  - exists [sent c e m b]. split; [reflexivity|]. split; [simpl; lia|].
    intros r [<- | []]. split; [reflexivity|]. exists e. reflexivity.
Qed.

(** X10: when the Client call succeeds, every handler except the one of
    [get-all-pages] answers with the serialised result (indent 2) and
    nothing else. *)
Theorem handler_success_text (call : Tools.ToolCall)
  (log log' : list HttpRequest) (result : value) :
  Tools.tool_of call <> Tools.GetAllPages ->
  Tools.client_call host c call log = (Ok result, log') ->
  Tools.handler host c call log
  = (Ok {| Tools.content :=
             [{| Tools.type := lit "text";
                 Tools.text := JSON_stringify_indent2 host result |}] |},
     log').
Proof.
  intros Hne H. destruct call; unfold Tools.client_call in H;
    unfold Tools.handler; unfold_handlers;
    try (rewrite H; reflexivity).
  exfalso. apply Hne. reflexivity.
Qed.

(** X11: the three tools whose Client operation validates answer a rejected
    identifier with the error text and without any request. *)
Theorem tool_rejects_invalid_id (id : jsstring) (log : list HttpRequest) :
  test_hex32 (reduce id) = false ->
  Tools.handler host c (Tools.get_page id) log
  = (Ok {| Tools.content :=
             [{| Tools.type := lit "text";
                 Tools.text := lit "Error retrieving page: "
                               ++ rejection_message id |}] |}, log)
  /\ (forall startCursor pageSize,
         Tools.handler host c
           (Tools.get_block_children id startCursor pageSize) log
         = (Ok {| Tools.content :=
                    [{| Tools.type := lit "text";
                        Tools.text := lit "Error retrieving block children: "
                                      ++ rejection_message id |}] |}, log))
  /\ (forall parentType title properties content,
         Tools.handler host c
           (Tools.create_page parentType id title properties content) log
         = (Ok {| Tools.content :=
                    [{| Tools.type := lit "text";
                        Tools.text := lit "Error creating page: "
                                      ++ rejection_message id |}] |},
            log)).
Proof.
  intros H. pose proof (validateUUID_rejects id H) as Hv.
  repeat split; intros; unfold Tools.handler; unfold_handlers.
  - rewrite (getPage_invalid host c id _ log Hv). reflexivity.
  - rewrite (getBlockChildren_invalid host c id _ _ log Hv). reflexivity.
  - cbv zeta. erewrite createPage_invalid by exact Hv. reflexivity.
Qed.

End HandlerInvariants.

Lemma handler_success_text_witness :
  Tools.handler example_host example_client Tools.get_current_user []
  = (Ok {| Tools.content :=
             [{| Tools.type := lit "text";
                 Tools.text := lit "[object Object]" |}] |},
     [sent example_client (lit "/v1/users/me") (lit "GET") VUndefined]).
Proof.
  refine (handler_success_text example_host example_client
            Tools.get_current_user []
            [sent example_client (lit "/v1/users/me") (lit "GET") VUndefined]
            empty_list_response _ _).
  - discriminate.
  - reflexivity.
Defined.

Lemma tool_rejects_invalid_id_witness :
  Tools.handler example_host example_client (Tools.get_page (lit "")) []
  = (Ok {| Tools.content :=
             [{| Tools.type := lit "text";
                 Tools.text :=
                   lit "Error retrieving page: Notion ID cannot be empty"
               |}] |}, []).
Proof.
  refine (proj1 (tool_rejects_invalid_id example_host example_client
                   (lit "") [] _)).
  reflexivity.
Defined.

(* ===================================================================== *)
(** ** The requests that the handlers build *)
(* ===================================================================== *)

Section HandlerRequests.

Context (host : Host) (c : Client.NotionClient).

(** X12: under a page parent the [create-page] tool sends the title as the
    only property, whatever properties the caller supplies, and one
    paragraph block as children exactly when the content is present and not
    empty. *)
Theorem create_page_under_page (parentId title id : jsstring)
  (properties : option (list (jsstring * value))) (content : option jsstring)
  (log : list HttpRequest) :
  Client.validateUUID parentId = Ok id ->
  snd (Tools.handler host c
         (Tools.create_page Client.page_id parentId title properties content)
         log)
  = log ++ [sent c (lit "/v1/pages") (lit "POST")
              (VObj [(lit "parent",
                      VObj [(lit "type", VStr (lit "page_id"));
                            (lit "page_id", VStr id)]);
                     (lit "properties",
                      VObj [(lit "title",
                             VArr [VObj [(lit "type", VStr (lit "text"));
                                         (lit "text",
                                          VObj [(lit "content",
                                                 VStr title)])]])]);
                     (lit "children",
                      match content with
                      | Some (x :: rest) =>
                          VArr [Tools.paragraph_block (x :: rest)]
                      | Some [] | None => VUndefined
                      end)])].
Proof.
  intros Hid. rewrite handler_log. unfold Tools.client_call.
  erewrite createPage_valid by exact Hid. rewrite request_log.
  destruct content as [[|x rest]|]; reflexivity.
Qed.

(** X13: the [create-database] tool sends the parent identifier as it was
    given, the title as one rich-text item, and as properties the caller's
    schema or, when none is given, a single [Name] title column. *)
Theorem create_database_request (parentId title : jsstring)
  (properties : option (list (jsstring * value))) (log : list HttpRequest) :
  snd (Tools.handler host c
         (Tools.create_database parentId title properties) log)
  = log ++ [sent c (lit "/v1/databases") (lit "POST")
              (VObj [(lit "parent",
                      VObj [(lit "type", VStr (lit "page_id"));
                            (lit "page_id", VStr parentId)]);
                     (lit "title",
                      VArr [VObj [(lit "type", VStr (lit "text"));
                                  (lit "text",
                                   VObj [(lit "content", VStr title)])]]);
                     (lit "properties",
                      VObj match properties with
                           | Some schema => schema
                           | None =>
                               [(lit "Name", VObj [(lit "title", VObj [])])]
                           end)])].
Proof.
  rewrite handler_log. unfold Tools.client_call, Client.createDatabase.
  rewrite request_log. destruct properties; reflexivity.
Qed.

(** X14: the body of a [search] request holds exactly the parameters that
    were supplied and are truthy, in the order query, start_cursor,
    page_size, filter, sort; an empty query or cursor and a page size of 0
    are left out. *)
Theorem search_request (query : option jsstring)
  (filter : option Tools.ObjectKind) (sort : option Tools.SortField)
  (sortDirection : option Tools.SortDirection) (pageSize : option Z)
  (startCursor : option jsstring) (log : list HttpRequest) :
  snd (Tools.handler host c
         (Tools.search query filter sort sortDirection pageSize startCursor)
         log)
  = log ++ [sent c (lit "/v1/search") (lit "POST")
              (VObj
                 (supplied_string (lit "query") query
                  ++ supplied_string (lit "start_cursor") startCursor
                  ++ supplied_number (lit "page_size") pageSize
                  ++ supplied (lit "filter")
                       (option_map
                          (fun kind =>
                             VObj [(lit "property", VStr (lit "object"));
                                   (lit "value",
                                    VStr (Tools.ObjectKind_name kind))])
                          filter)
                  ++ supplied (lit "sort")
                       (option_map
                          (fun field =>
                             VObj [(lit "timestamp",
                                    VStr (Tools.SortField_name field));
                                   (lit "direction",
                                    VStr match sortDirection with
                                         | Some d =>
                                             Tools.SortDirection_name d
                                         | None => lit "descending"
                                         end)])
                          sort)))].
Proof.
  rewrite handler_log. unfold Tools.client_call, Client.search.
  rewrite request_log. do 3 f_equal.
  unfold Tools.searchParams, Tools.set_if, supplied_string, supplied_number,
    supplied.
  destruct query as [[|x q]|], startCursor as [[|y sc]|], pageSize as [n|],
    filter as [kind|], sort as [field|], sortDirection as [[]|];
    cbn [Js.of_option_string Js.of_option_number Js.truthy length Nat.eqb
         negb option_map];
    try destruct (n =? 0)%Z; reflexivity.
Qed.

(** X15: the body of a [query-database] request holds exactly the supplied
    parameters, in the order filter, sorts, start_cursor, page_size; an empty
    cursor and a page size of 0 are left out, an empty filter or sort list is
    kept.  The database identifier goes into the URL as given. *)
Theorem query_database_request (databaseId : jsstring)
  (filter : option (list (jsstring * value))) (sorts : option (list value))
  (startCursor : option jsstring) (pageSize : option Z)
  (log : list HttpRequest) :
  snd (Tools.handler host c
         (Tools.query_database databaseId filter sorts startCursor pageSize)
         log)
  = log ++ [sent c (lit "/v1/databases/" ++ databaseId ++ lit "/query")
              (lit "POST")
              (VObj
                 (supplied (lit "filter") (option_map VObj filter)
                  ++ supplied (lit "sorts") (option_map VArr sorts)
                  ++ supplied_string (lit "start_cursor") startCursor
                  ++ supplied_number (lit "page_size") pageSize))].
Proof.
  rewrite handler_log. unfold Tools.client_call, Client.queryDatabase.
  rewrite request_log. do 3 f_equal.
  unfold Tools.queryParams, Tools.set_if, supplied_string, supplied_number,
    supplied.
  destruct filter as [flt|], sorts as [srt|], startCursor as [[|y sc]|],
    pageSize as [n|];
    cbn [Js.of_option_string Js.of_option_number Js.truthy length Nat.eqb
         negb option_map];
    try destruct (n =? 0)%Z; reflexivity.
Qed.

(** X16: the [get-block-children] tool never uses its page size, and its
    cursor does not become a query parameter: with an accepted identifier
    the request is a [GET] of the children URL whose body is the cursor
    string when that is not empty. *)
Theorem get_block_children_request (blockId id : jsstring)
  (startCursor : option jsstring) (pageSize : option Z)
  (log : list HttpRequest) :
  Client.validateUUID blockId = Ok id ->
  snd (Tools.handler host c
         (Tools.get_block_children blockId startCursor pageSize) log)
  = log ++ [{| url := Client.baseUrl c ++ lit "/v1/blocks/" ++ id
                      ++ lit "/children";
               method := lit "GET";
               headers := standard_headers c;
               body := match startCursor with
                       | Some (x :: rest) => Some (VStr (x :: rest))
                       | Some [] | None => None
                       end |}]
  /\ forall pageSize',
       Tools.handler host c
         (Tools.get_block_children blockId startCursor pageSize') log
       = Tools.handler host c
           (Tools.get_block_children blockId startCursor pageSize) log.
Proof.
  intros Hid. split; [|reflexivity].
  rewrite handler_log. unfold Tools.client_call, Client.getBlockChildren,
    bind, lift.
  rewrite Hid, request_log. destruct startCursor as [[|x rest]|]; reflexivity.
Qed.

(** X17: the [get-all-pages] tool always searches with the page filter, the
    given page size (100 when none is given) and the given cursor, and never
    with a query. *)
Theorem get_all_pages_request (startCursor : option jsstring)
  (pageSize : option Z) (log : list HttpRequest) :
  snd (Tools.handler host c (Tools.get_all_pages startCursor pageSize) log)
  = log ++ [sent c (lit "/v1/search") (lit "POST")
              (VObj [(lit "filter",
                      VObj [(lit "value", VStr (lit "page"));
                            (lit "property", VStr (lit "object"))]);
                     (lit "page_size", VNum (page_size_or_100 pageSize));
                     (lit "start_cursor",
                      match startCursor with
                      | Some cursor => VStr cursor
                      | None => VUndefined
                      end)])].
Proof.
  rewrite handler_log. unfold Tools.client_call, Client.search.
  rewrite request_log. reflexivity.
Qed.

(** X18: an [ok] answer to [get-all-pages] that has no [results] does not
    make the handler throw: reading the length fails inside the [try], and
    the handler answers with an error text. *)
Theorem get_all_pages_without_results (startCursor : option jsstring)
  (pageSize : option Z) (log : list HttpRequest) (status : Z)
  (fields : list (jsstring * value)) :
  fetch host log
    (sent c (lit "/v1/search") (lit "POST")
       (Tools.allPages_params startCursor (page_size_or_100 pageSize)))
  = Response status (VObj fields) ->
  response_ok status = true ->
  Js.lookup_field (lit "results") fields = None ->
  exists message,
    fst (Tools.handler host c (Tools.get_all_pages startCursor pageSize) log)
    = Ok {| Tools.content :=
              [{| Tools.type := lit "text";
                  Tools.text := lit "Error retrieving pages: " ++ message
                |}] |}.
Proof.
  intros Hf Hok Hr. unfold Tools.handler; unfold_handlers.
  unfold Client.search. cbv zeta.
  erewrite request_ok by eassumption.
  unfold Tools.allPages_text, Js.get, Js.field. rewrite Hr.
  eexists. reflexivity.
Qed.

End HandlerRequests.

Lemma create_page_under_page_witness :
  snd (Tools.handler example_host example_client
         (Tools.create_page Client.page_id
            (lit "0123456789abcdef0123456789abcdef") (lit "Foo")
            (Some [(lit "Name", VStr (lit "ignored"))]) (Some (lit ""))) [])
  = [sent example_client (lit "/v1/pages") (lit "POST")
       (VObj [(lit "parent",
               VObj [(lit "type", VStr (lit "page_id"));
                     (lit "page_id",
                      VStr (lit "01234567-89ab-cdef-0123-456789abcdef"))]);
              (lit "properties",
               VObj [(lit "title", VArr [Tools.rich_text_item (lit "Foo")])]);
              (lit "children", VUndefined)])].
Proof.
  apply (create_page_under_page example_host example_client
           (lit "0123456789abcdef0123456789abcdef") (lit "Foo")
           (lit "01234567-89ab-cdef-0123-456789abcdef")
           (Some [(lit "Name", VStr (lit "ignored"))]) (Some (lit "")) []).
  vm_compute. reflexivity.
Defined.

Lemma get_block_children_request_witness :
  snd (Tools.handler example_host example_client
         (Tools.get_block_children (lit "0123456789abcdef0123456789abcdef")
            (Some (lit "next")) (Some 10%Z)) [])
  = [{| url := lit "https://api.notion.com/v1/blocks/01234567-89ab-cdef-0123-456789abcdef/children";
        method := lit "GET";
        headers := standard_headers example_client;
        body := Some (VStr (lit "next")) |}].
Proof.
  refine (proj1 (get_block_children_request example_host example_client
                   (lit "0123456789abcdef0123456789abcdef")
                   (lit "01234567-89ab-cdef-0123-456789abcdef")
                   (Some (lit "next")) (Some 10%Z) [] _)).
  vm_compute. reflexivity.
Defined.

Lemma get_all_pages_without_results_witness :
  exists message,
    fst (Tools.handler
           {| fetch := fun _ _ => Response 200 (VObj []);
              JSON_stringify := Js.toString;
              JSON_stringify_indent2 := Js.toString;
              URLSearchParams_toString := fun _ => [] |}
           example_client (Tools.get_all_pages None None) [])
    = Ok {| Tools.content :=
              [{| Tools.type := lit "text";
                  Tools.text := lit "Error retrieving pages: " ++ message
                |}] |}.
Proof.
  apply (get_all_pages_without_results _ example_client None None [] 200%Z []);
    reflexivity.
Defined.

(* ===================================================================== *)
(** ** Further properties of registration and start-up *)
(* ===================================================================== *)

Section RegistrationInvariants.

Lemma NoDup_map_filter {A B : Type} (g : A -> B) (f : A -> bool)
  (l : list A) :
  NoDup (List.map g l) -> NoDup (List.map g (List.filter f l)).
Proof.
  induction l as [|a l IH]; simpl; intros H; [constructor|].
  apply NoDup_cons in H. destruct H as [Hnotin Hl].
  destruct (f a); simpl; [|auto].
  apply NoDup_cons. split; [|auto].
  intros Hin. apply Hnotin. apply list_elem_of_In in Hin.
  apply list_elem_of_In. apply in_map_iff in Hin.
  destruct Hin as (x & Hx & Hxin). apply filter_In in Hxin.
  apply in_map_iff. exists x. tauto.
Qed.

Lemma tool_names_distinct : NoDup (List.map Tools.name Tools.all_tools).
Proof.
  unfold Tools.all_tools. cbn [List.map].
  repeat (apply NoDup_cons; split;
          [rewrite list_elem_of_In; cbn [In Tools.name];
           intuition discriminate|]).
  apply NoDup_nil. trivial.
Qed.

Lemma filter_all {A : Type} (f : A -> bool) (l : list A) :
  (forall x, In x l -> f x = true) -> List.filter f l = l.
Proof.
  induction l as [|a l IH]; simpl; intros H; [reflexivity|].
  rewrite (H a) by auto. f_equal. apply IH. auto.
Qed.

(** X19: on a server that holds none of the thirteen tool names (a new
    server in particular) registration only appends: the registrations
    already there stay where they are, what is added are registrations of
    the thirteen tools, at most one each, and no added name is a name that
    was there before, so no name is registered twice. *)
Theorem registerNotionTools_appends (server : Tools.McpServer)
  (toolConfig : gmap jsstring bool) :
  (forall r t, In r server -> Tools.reg_name r <> Tools.name t) ->
  exists added,
    Tools.registerNotionTools server toolConfig = server ++ added
    /\ (length added <= 13)%nat
    /\ NoDup (List.map Tools.reg_name added)
    /\ (forall r, In r added -> exists t, r = Tools.registration t)
    /\ forall r r', In r server -> In r' added ->
                    Tools.reg_name r <> Tools.reg_name r'.
Proof.
  intros Hfree. rewrite registerNotionTools_fold, fold_step.
  eexists. split; [reflexivity|]. split; [|split; [|split]].
  - rewrite length_map.
    etransitivity; [apply List.filter_length_le|]. simpl. lia.
  - rewrite List.map_map. cbn [Tools.reg_name Tools.registration].
    apply (NoDup_map_filter Tools.name). apply tool_names_distinct.
  - intros r Hr. apply in_map_iff in Hr. destruct Hr as (t & <- & _).
    exists t. reflexivity.
  - intros r r' Hr Hr'. apply in_map_iff in Hr'.
    destruct Hr' as (t & <- & _). cbn [Tools.reg_name Tools.registration].
    apply Hfree. exact Hr.
Qed.

(** X20: a configuration key that is not the name of a tool changes
    nothing. *)
Theorem unknown_key_is_ignored (server : Tools.McpServer)
  (toolConfig : gmap jsstring bool) (key : jsstring) (enabled : bool) :
  (forall t, Tools.name t <> key) ->
  Tools.registerNotionTools server (<[key := enabled]> toolConfig)
  = Tools.registerNotionTools server toolConfig.
Proof.
  intros Hkey. rewrite !registerNotionTools_fold, !fold_step.
  do 2 f_equal. apply List.filter_ext. intros t. unfold Tools.not_false.
  rewrite lookup_insert_ne by (intros E; apply (Hkey t); congruence).
  reflexivity.
Qed.

(** X21: setting one tool to [false] removes that tool from the list and
    leaves every other tool as it was. *)
Theorem disabling_removes_one (toolConfig : gmap jsstring bool)
  (t : Tools.Tool) (n : jsstring) :
  In n (Tools.listed
          (Tools.registerNotionTools Tools.new_server
             (<[Tools.name t := false]> toolConfig)))
  <-> In n (Tools.listed
              (Tools.registerNotionTools Tools.new_server toolConfig))
      /\ n <> Tools.name t.
Proof.
  rewrite !listed_registerNotionTools, !in_map_iff.
  split.
  - intros (t' & <- & Hin). apply filter_In in Hin. destruct Hin as [Hall Hf].
    unfold Tools.not_false in Hf.
    destruct (decide (Tools.name t' = Tools.name t)) as [E|Hne].
    + rewrite E, lookup_insert_eq in Hf. discriminate Hf.
    + rewrite lookup_insert_ne in Hf by congruence.
      split; [|exact Hne]. exists t'. split; [reflexivity|].
      apply filter_In. split; assumption.
  - intros ((t' & <- & Hin) & Hne). apply filter_In in Hin.
    destruct Hin as [Hall Hf]. exists t'. split; [reflexivity|].
    apply filter_In. split; [exact Hall|]. unfold Tools.not_false.
    rewrite lookup_insert_ne by congruence. exact Hf.
Qed.

(** X22: a configuration that maps no tool name to [false] (in particular
    the empty one) registers all thirteen tools, in the order of the source. *)
Theorem all_tools_by_default (toolConfig : gmap jsstring bool) :
  (forall t, toolConfig !! Tools.name t <> Some false) ->
  Tools.listed (Tools.registerNotionTools Tools.new_server toolConfig)
  = [lit "get-current-user"; lit "list-users"; lit "search"; lit "get-page";
     lit "create-page"; lit "get-database"; lit "create-database";
     lit "query-database"; lit "get-block-children";
     lit "append-block-children"; lit "get-comments"; lit "create-comment";
     lit "get-all-pages"].
Proof.
  intros H. rewrite listed_registerNotionTools, filter_all; [reflexivity|].
  intros t _. specialize (H t). unfold Tools.not_false.
  destruct (toolConfig !! Tools.name t) as [[]|]; congruence.
Qed.

(** X23: the program starts exactly when the key is set and not empty.  It
    then talks to the default base URL with the default API version and
    offers the eight tools that its configuration leaves enabled; without a
    key it stops with the error about the missing variable. *)
Theorem start_requires_key (NOTION_API_KEY : option jsstring) :
  match NOTION_API_KEY with
  | Some (x :: rest) =>
      exists started,
        Main.start NOTION_API_KEY = Ok started
        /\ Main.notionClient started
           = {| Client.apiKey := x :: rest;
                Client.baseUrl := lit "https://api.notion.com";
                Client.apiVersion := lit "2022-06-28" |}
        /\ Tools.listed (Main.server started)
           = [lit "get-current-user"; lit "list-users"; lit "search";
              lit "get-page"; lit "create-page"; lit "get-block-children";
              lit "append-block-children"; lit "get-all-pages"]
  | Some [] | None =>
      Main.start NOTION_API_KEY
      = Throw (ErrorObj
                 (lit "NOTION_API_KEY environment variable is required"))
  end.
Proof.
  destruct NOTION_API_KEY as [[|x rest]|]; try reflexivity.
  eexists. split; [reflexivity|]. split; [reflexivity|].
  apply shipped_tool_list.
Qed.

End RegistrationInvariants.

Lemma unknown_key_is_ignored_witness :
  Tools.registerNotionTools Tools.new_server
    (<[lit "delete-page" := false]> Tools.toolConfig)
  = Tools.registerNotionTools Tools.new_server Tools.toolConfig.
Proof.
  apply (unknown_key_is_ignored Tools.new_server Tools.toolConfig
           (lit "delete-page") false).
  intros t. destruct t; discriminate.
Defined.

Lemma all_tools_by_default_witness :
  Tools.listed (Tools.registerNotionTools Tools.new_server ∅)
  = [lit "get-current-user"; lit "list-users"; lit "search"; lit "get-page";
     lit "create-page"; lit "get-database"; lit "create-database";
     lit "query-database"; lit "get-block-children";
     lit "append-block-children"; lit "get-comments"; lit "create-comment";
     lit "get-all-pages"].
Proof.
  apply (all_tools_by_default ∅). intros t. rewrite lookup_empty.
  discriminate.
Defined.

(* ===================================================================== *)
(** ** Paging and a network that is down *)
(* ===================================================================== *)

Section PagingAndOutage.

Context (host : Host) (c : Client.NotionClient).


Lemma handler_catches (call : Tools.ToolCall) (log log' : list HttpRequest)
  (e : thrown) :
  Tools.client_call host c call log = (Throw e, log') ->
  fst (Tools.handler host c call log)
  = Ok (Tools.text_result
          (lit "Error " ++ Tools.action (Tools.tool_of call) ++ lit ": "
           ++ Js.message_of e)).
Proof.
  intros H. destruct call; unfold Tools.client_call in H;
    unfold Tools.handler; unfold_handlers; rewrite H; reflexivity.
Qed.

(** X25: while every request is rejected with the same [Error], no tool
    reports success.  Each invocation answers with one text item that reads
    [Error <action>: ] followed by that error's message; only an invocation
    of [get-page], [create-page] or [get-block-children] whose own
    identifier does not reduce to 32 hex digits answers with the validation
    message of that identifier instead. *)
Theorem outage_gives_error_text (message : jsstring)
  (call : Tools.ToolCall) (log : list HttpRequest) :
  (forall earlier req, fetch host earlier req = Rejected (ErrorObj message)) ->
  fst (Tools.handler host c call log)
  = Ok {| Tools.content :=
            [{| Tools.type := lit "text";
                Tools.text :=
                  lit "Error " ++ Tools.action (Tools.tool_of call)
                  ++ lit ": "
                  ++ match validated_identifier call with
                     | Some id =>
                         if test_hex32 (reduce id) then message
                         else rejection_message id
                     | None => message
                     end |}] |}.
Proof.
  intros Hdown.
  assert (Hreq : forall e m b l,
             Client.request host c e m b l
             = (Throw (ErrorObj message), l ++ [sent c e m b])).
  { intros e m b l. unfold Client.request. fold (sent c e m b).
    rewrite Hdown. reflexivity. }
  assert (Hcall : exists log',
             Tools.client_call host c call log
             = (Throw (ErrorObj
                         match validated_identifier call with
                         | Some id =>
                             if test_hex32 (reduce id) then message
                             else rejection_message id
                         | None => message
                         end), log')).
  { destruct call; unfold Tools.client_call, validated_identifier;
      unfold_operations;
      try (rewrite Hreq; eexists; reflexivity);
      try (destruct parentType);
      cbn [Client.parent_type Client.parent_id];
      match goal with
      | |- context [Client.validateUUID ?s] =>
          destruct (test_hex32 (reduce s)) eqn:Ev;
          [rewrite (validateUUID_accepts s Ev); cbv beta iota;
           rewrite Hreq
          |rewrite (validateUUID_rejects s Ev)];
          eexists; reflexivity
      end. }
  destruct Hcall as (log' & Hc).
  rewrite (handler_catches call log log' _ Hc). reflexivity.
Qed.

End PagingAndOutage.

Lemma outage_gives_error_text_witness :
  fst (Tools.handler
         {| fetch := fun _ _ => Rejected (ErrorObj (lit "fetch failed"));
            JSON_stringify := Js.toString;
            JSON_stringify_indent2 := Js.toString;
            URLSearchParams_toString := fun _ => [] |}
         example_client
         (Tools.get_page (lit "0123456789abcdef0123456789abcdef")) [])
  = Ok {| Tools.content :=
            [{| Tools.type := lit "text";
                Tools.text := lit "Error retrieving page: fetch failed"
              |}] |}.
Proof.
  apply (outage_gives_error_text _ example_client (lit "fetch failed")
           (Tools.get_page (lit "0123456789abcdef0123456789abcdef")) []).
  intros earlier req. reflexivity.
Defined.

Lemma handler_one_request_witness :
  exists added,
    snd (Tools.handler example_host example_client
           (Tools.get_page (lit "0123456789abcdef0123456789abcdef")) [])
    = [] ++ added
    /\ (length added <= 1)%nat
    /\ forall r, In r added ->
         headers r
         = [(lit "Authorization",
             lit "Bearer " ++ Client.apiKey example_client);
            (lit "Content-Type", lit "application/json");
            (lit "Notion-Version", Client.apiVersion example_client)]
         /\ exists endpoint,
              url r = Client.baseUrl example_client ++ endpoint.
Proof.
  exact (handler_one_request example_host example_client
           (Tools.get_page (lit "0123456789abcdef0123456789abcdef")) []).
Defined.

Lemma registerNotionTools_appends_witness :
  exists added,
    Tools.registerNotionTools
      [{| Tools.reg_name := lit "ping";
          Tools.reg_description := lit "Answer pong";
          Tools.reg_tool := Tools.GetCurrentUser |}]
      Tools.toolConfig
    = [{| Tools.reg_name := lit "ping";
          Tools.reg_description := lit "Answer pong";
          Tools.reg_tool := Tools.GetCurrentUser |}] ++ added
    /\ (length added <= 13)%nat
    /\ NoDup (List.map Tools.reg_name added)
    /\ (forall r, In r added -> exists t, r = Tools.registration t)
    /\ forall r r',
         In r [{| Tools.reg_name := lit "ping";
                  Tools.reg_description := lit "Answer pong";
                  Tools.reg_tool := Tools.GetCurrentUser |}] ->
         In r' added -> Tools.reg_name r <> Tools.reg_name r'.
Proof.
  apply (registerNotionTools_appends
           [{| Tools.reg_name := lit "ping";
               Tools.reg_description := lit "Answer pong";
               Tools.reg_tool := Tools.GetCurrentUser |}]
           Tools.toolConfig).
  intros r t [<- | []]. destruct t; discriminate.
Defined.

Lemma disabling_removes_one_witness :
  In (lit "search")
    (Tools.listed
       (Tools.registerNotionTools Tools.new_server
          (<[lit "get-page" := false]> Tools.toolConfig)))
  /\ ~ In (lit "get-page")
         (Tools.listed
            (Tools.registerNotionTools Tools.new_server
               (<[lit "get-page" := false]> Tools.toolConfig))).
Proof.
  split.
  - apply (proj2 (disabling_removes_one Tools.toolConfig Tools.GetPage
                    (lit "search"))).
    split; [|discriminate]. rewrite shipped_tool_list. simpl. tauto.
  - intros H.
    apply (proj1 (disabling_removes_one Tools.toolConfig Tools.GetPage
                    (lit "get-page"))) in H.
    destruct H as [_ H]. apply H. reflexivity.
Defined.
